(** * Virtual-number bot: the registry, the provider client and the handlers

    A shallow embedding of [app.py].  The two module-level dictionaries
    [user_data_store] and [purchased_numbers], the per-user
    [context.user_data], the HTTP requests issued through [requests] and the
    chat messages sent back are the components of one [world] record that
    every handler threads through a state-and-exception monad.  The provider
    is an oracle answering each request; the clock reading of
    [datetime.now().isoformat()] is an argument of the handlers that use it.

    Outside the model: the calls to [logger] and [query.answer()], and the
    dispatch of updates to the handlers that [main] registers.  A response
    body is seen through the keys the handlers read, with scalar fields. *)

From stdpp Require Import gmap strings list fin_maps pretty.
From Stdlib Require Import ZArith Lia Ascii.

Open Scope Z_scope.

(** ** Python values *)

(** The scalar values a JSON field of the provider carries ([None] also
    stands for what [dict.get] returns on a missing key).  Fractional
    numbers are not modelled. *)
Inductive pyval :=
| PyNone
| PyInt (z : Z)
| PyStr (s : string).

Global Instance pyval_eq_dec : EqDecision pyval.
Proof. solve_decision. Defined.

Global Instance pyval_countable : Countable pyval.
Proof.
  refine (inj_countable'
    (fun v => match v with
              | PyNone => inl ()
              | PyInt z => inr (inl z)
              | PyStr s => inr (inr s)
              end)
    (fun x => match x with
              | inl _ => PyNone
              | inr (inl z) => PyInt z
              | inr (inr s) => PyStr s
              end) _).
  by intros [].
Defined.

(** [str(v)], as an f-string renders a value. *)
Definition py_str (v : pyval) : string :=
  match v with
  | PyNone => "None"
  | PyInt z => pretty z
  | PyStr s => s
  end.

(** A JSON object with scalar fields; [d.get(k)] and [d.get(k, default)]. *)
Abbreviation pydict := (gmap string pyval).

Definition dict_get (d : pydict) (k : string) : pyval :=
  default PyNone (d !! k).

Definition dict_get_default (d : pydict) (k : string) (dflt : pyval) : pyval :=
  default dflt (d !! k).

(** [l[start:stop]] for integer bounds: a negative bound counts from the
    end, and both are clamped to the length. *)
Definition slice_bound {A} (l : list A) (i : Z) : nat :=
  let len := Z.of_nat (length l) in
  Z.to_nat (if decide (i < 0) then Z.max (i + len) 0 else Z.min i len).

Definition py_slice {A} (l : list A) (start stop : Z) : list A :=
  take (slice_bound l stop - slice_bound l start) (drop (slice_bound l start) l).

(** [s[:n]] on a string. *)
Definition str_prefix (n : nat) (s : string) : string := String.substring 0 n s.

(** [s * n] on a string. *)
Fixpoint str_repeat (s : string) (n : nat) : string :=
  match n with
  | O => ""
  | S n' => s +:+ str_repeat s n'
  end.

(** ** Data model *)

Inductive number_status := active | cancelled.

Global Instance number_status_eq_dec : EqDecision number_status.
Proof. solve_decision. Defined.

(** A value of [purchased_numbers]. *)
Record number_info := NumberInfo {
  user_id : Z;
  country_code : string;
  phone_number : pyval;
  purchase_date : string;
  status : number_status
}.

Definition set_status (st : number_status) (n : number_info) : number_info :=
  {| user_id := user_id n; country_code := country_code n;
     phone_number := phone_number n; purchase_date := purchase_date n;
     status := st |}.

(** The three keys [start] writes. *)
Record profile := Profile {
  username : option string;
  first_name : string;
  join_date : string
}.

(** A value of [user_data_store]: a dictionary whose keys are the profile
    keys (present together or not at all) and ['numbers']. *)
Record user_record := UserRecord {
  user_profile : option profile;
  numbers : option (list pyval)
}.

(** The ['data'] entry of a response body: [null], an object or an array
    of objects. *)
Inductive payload :=
| PNull
| PDict (d : pydict)
| PList (l : list pydict).

(** A parsed response body, seen through the three keys the handlers read:
    [success] is the truth value of [result.get('success')]; [data] is
    [None] when the key is missing, where [result.get('data', default)]
    gives the default, and [Some PNull] when the key holds [null], where it
    gives [None]. *)
Record json_body := JsonBody {
  success : bool;
  data : option payload;
  error : option pyval
}.

Definition payload_truthy (p : payload) : bool :=
  match p with
  | PNull => false
  | PDict d => bool_decide (d ≠ ∅)
  | PList l => bool_decide (l ≠ [])
  end.

(** ** HTTP *)

Inductive http_method := GET | POST | DELETE.

Record request := Request {
  method : http_method;
  url : string;
  headers : list (string * string);
  json : option (list (string * string));
  timeout : Z
}.

(** The subclasses of [requests.exceptions.RequestException] that a call,
    [raise_for_status] and [json] raise; [str(e)] is the message. *)
Inductive request_error_class := ConnectionError | Timeout | HTTPError | JSONDecodeError.

Record request_exception := RequestExc {
  exc_class : request_error_class;
  exc_str : string
}.

(** A received response: [http_error] is the text of the [HTTPError] that
    [raise_for_status] raises for its status, if it raises; [parsed] is what
    [json] returns, or the text of its decoding error. *)
Record response := Response {
  http_error : option string;
  parsed : string + json_body
}.

(** The provider and the transport: given the requests issued so far, a
    request either fails in transport or is answered. *)
Definition network := list request → request → request_exception + response.

(** ** Chat output *)

Record InlineKeyboardButton := Button {
  label : string;
  callback_data : string
}.

Abbreviation InlineKeyboardMarkup := (list (list InlineKeyboardButton)).

Inductive parse_mode := PlainText | MARKDOWN.

Inductive bot_message :=
| reply_text (text : string) (reply_markup : option InlineKeyboardMarkup) (mode : parse_mode)
| edit_text (text : string) (reply_markup : option InlineKeyboardMarkup) (mode : parse_mode).

(** ** Updates *)

Record tg_user := TgUser {
  id : Z;
  tg_username : option string;
  tg_first_name : string
}.

(** A command arrives as a message; a button press arrives as a callback
    query, whose [update.message] is [None]. *)
Inductive update_kind := Command | CallbackQuery.

Record Update := MkUpdate {
  effective_user : tg_user;
  kind : update_kind
}.

(** [context.user_data] of one user. *)
Record session := Session {
  countries : option payload;
  country_page : option Z
}.

(** ** The world and the handler monad *)

Record world := World {
  user_data_store : gmap Z user_record;
  purchased_numbers : gmap pyval number_info;
  user_data : gmap Z session;
  http_log : list request;
  outbox : list bot_message
}.

Definition set_user_data_store (f : gmap Z user_record → gmap Z user_record) (w : world) : world :=
  {| user_data_store := f (user_data_store w); purchased_numbers := purchased_numbers w;
     user_data := user_data w; http_log := http_log w; outbox := outbox w |}.

Definition set_purchased_numbers (f : gmap pyval number_info → gmap pyval number_info) (w : world) : world :=
  {| user_data_store := user_data_store w; purchased_numbers := f (purchased_numbers w);
     user_data := user_data w; http_log := http_log w; outbox := outbox w |}.

Definition set_user_data (f : gmap Z session → gmap Z session) (w : world) : world :=
  {| user_data_store := user_data_store w; purchased_numbers := purchased_numbers w;
     user_data := f (user_data w); http_log := http_log w; outbox := outbox w |}.

Definition set_http_log (f : list request → list request) (w : world) : world :=
  {| user_data_store := user_data_store w; purchased_numbers := purchased_numbers w;
     user_data := user_data w; http_log := f (http_log w); outbox := outbox w |}.

Definition set_outbox (f : list bot_message → list bot_message) (w : world) : world :=
  {| user_data_store := user_data_store w; purchased_numbers := purchased_numbers w;
     user_data := user_data w; http_log := http_log w; outbox := f (outbox w) |}.

Definition empty_world : world :=
  {| user_data_store := ∅; purchased_numbers := ∅; user_data := ∅;
     http_log := []; outbox := [] |}.

(** Exceptions: those of [requests], and the faults of dynamic typing
    ([AttributeError] on [None], [TypeError], [NameError]). *)
Inductive exn :=
| RequestException (e : request_exception)
| RuntimeFault (what : string).

Inductive outcome (A : Type) :=
| Done (a : A)
| Raised (e : exn).
Arguments Done {A} a.
Arguments Raised {A} e.

Definition M (A : Type) : Type := world → outcome A * world.

Definition ret {A} (a : A) : M A := fun w => (Done a, w).

Definition bind {A B} (c : M A) (k : A → M B) : M B :=
  fun w => match c w with
           | (Done a, w') => k a w'
           | (Raised e, w') => (Raised e, w')
           end.

Definition raise {A} (e : exn) : M A := fun w => (Raised e, w).

Definition get_world : M world := fun w => (Done w, w).

Definition modify (f : world → world) : M unit := fun w => (Done tt, f w).

Notation "x <- c ;; k" := (bind c (fun x => k))
  (at level 100, c at next level, right associativity).
Notation "c ;;; k" := (bind c (fun _ => k))
  (at level 100, right associativity).

(** What a call of an [async def] function returns: the body has not
    started, and runs when the coroutine is awaited. *)
Record coroutine (A : Type) := Coroutine { await : M A }.
Arguments Coroutine {A} await.
Arguments await {A} c.

(** [try: body except requests.exceptions.RequestException as e: handler]. *)
Definition try_except_request {A} (body : M A) (handler : request_exception → M A) : M A :=
  fun w => match body w with
           | (Raised (RequestException e), w') => handler e w'
           | r => r
           end.

(** [for x in l: body]. *)
Fixpoint for_each {A} (l : list A) (body : A → M unit) : M unit :=
  match l with
  | [] => ret tt
  | x :: l' => body x ;;; for_each l' body
  end.

Definition send_message (m : bot_message) : M unit :=
  modify (set_outbox (fun o => o ++ [m])).

(** [update.message.reply_text(...)]: [update.message] is [None] on a
    callback query. *)
Definition update_message_reply_text (update : Update) (text : string)
    (markup : option InlineKeyboardMarkup) (mode : parse_mode) : M unit :=
  match kind update with
  | Command => send_message (reply_text text markup mode)
  | CallbackQuery => raise (RuntimeFault "AttributeError: 'NoneType' object has no attribute 'reply_text'")
  end.

(** [update.callback_query.message.reply_text(...)]: [update.callback_query]
    is [None] on a command. *)
Definition callback_message_reply_text (update : Update) (text : string)
    (markup : option InlineKeyboardMarkup) (mode : parse_mode) : M unit :=
  match kind update with
  | CallbackQuery => send_message (reply_text text markup mode)
  | Command => raise (RuntimeFault "AttributeError: 'NoneType' object has no attribute 'message'")
  end.

(** [update.callback_query.edit_message_text(...)]. *)
Definition query_edit_message_text (update : Update) (text : string)
    (markup : option InlineKeyboardMarkup) (mode : parse_mode) : M unit :=
  match kind update with
  | CallbackQuery => send_message (edit_text text markup mode)
  | Command => raise (RuntimeFault "AttributeError: 'NoneType' object has no attribute 'edit_message_text'")
  end.

(** [message.edit_text(...)] on a message the bot sent. *)
Definition message_edit_text (text : string)
    (markup : option InlineKeyboardMarkup) (mode : parse_mode) : M unit :=
  send_message (edit_text text markup mode).

Definition RAPIDAPI_HOST : string := "virtual-number.p.rapidapi.com".

(** ** The [requests] calls the client makes *)

Section Requests.

Context (net : network).

(** One call of [requests.get], [requests.post] or [requests.delete]: the
    request goes out once and is answered by the network. *)
Definition requests_call net (r : request) : M response :=
  fun w =>
    let w' := set_http_log (fun l => l ++ [r]) w in
    match net (http_log w) r with
    | inl e => (Raised (RequestException e), w')
    | inr resp => (Done resp, w')
    end.

Definition raise_for_status (resp : response) : M unit :=
  match http_error resp with
  | Some msg => raise (RequestException (RequestExc HTTPError msg))
  | None => ret tt
  end.

Definition response_json (resp : response) : M json_body :=
  match parsed resp with
  | inl msg => raise (RequestException (RequestExc JSONDecodeError msg))
  | inr b => ret b
  end.

(** [{"success": False, "error": str(e)}]. *)
Definition failure_result (e : request_exception) : json_body :=
  {| success := false; data := None; error := Some (PyStr (exc_str e)) |}.

End Requests.

(** ** The provider client *)

Module VirtualNumberAPI.

Record t := Make {
  api_key : string;
  base_url : string;
  api_headers : list (string * string)
}.

Definition init (api_key : string) : t :=
  {| api_key := api_key;
     base_url := "https://virtual-number.p.rapidapi.com/api/v1/e-sim";
     api_headers := [("x-rapidapi-host", RAPIDAPI_HOST);
                     ("x-rapidapi-key", api_key);
                     ("Content-Type", "application/json")] |}.

Section Methods.

Context (net : network).

Definition get_all_countries_request (self : t) : request :=
  {| method := GET; url := base_url self +:+ "/all-countries";
     headers := api_headers self; json := None; timeout := 10 |}.

Definition get_all_countries (self : t) : M json_body :=
  try_except_request
    (response <- requests_call net (get_all_countries_request self) ;;
     raise_for_status response ;;;
     response_json response)
    (fun e => ret (failure_result e)).

Definition purchase_number_request (self : t) (country_code service : string) : request :=
  {| method := POST; url := base_url self +:+ "/purchase";
     headers := api_headers self;
     json := Some [("country_code", country_code); ("service", service)];
     timeout := 10 |}.

Definition purchase_number (self : t) (country_code : string) (service : string) : M json_body :=
  try_except_request
    (response <- requests_call net (purchase_number_request self country_code service) ;;
     raise_for_status response ;;;
     response_json response)
    (fun e => ret (failure_result e)).

Definition get_sms_request (self : t) (number_id : pyval) : request :=
  {| method := GET; url := base_url self +:+ "/sms/" +:+ py_str number_id;
     headers := api_headers self; json := None; timeout := 10 |}.

Definition get_sms (self : t) (number_id : pyval) : M json_body :=
  try_except_request
    (response <- requests_call net (get_sms_request self number_id) ;;
     raise_for_status response ;;;
     response_json response)
    (fun e => ret (failure_result e)).

Definition get_active_numbers_request (self : t) : request :=
  {| method := GET; url := base_url self +:+ "/active-numbers";
     headers := api_headers self; json := None; timeout := 10 |}.

Definition get_active_numbers (self : t) : M json_body :=
  try_except_request
    (response <- requests_call net (get_active_numbers_request self) ;;
     raise_for_status response ;;;
     response_json response)
    (fun e => ret (failure_result e)).

Definition cancel_number_request (self : t) (number_id : pyval) : request :=
  {| method := DELETE; url := base_url self +:+ "/cancel/" +:+ py_str number_id;
     headers := api_headers self; json := None; timeout := 10 |}.

Definition cancel_number (self : t) (number_id : pyval) : M json_body :=
  try_except_request
    (response <- requests_call net (cancel_number_request self number_id) ;;
     raise_for_status response ;;;
     response_json response)
    (fun e => ret (failure_result e)).

End Methods.

End VirtualNumberAPI.

(** ** The handlers *)

(** What [for x in p] iterates over: the keys of an object, the elements of
    an array; [None] is not iterable. *)
Definition payload_elements (p : payload) : option (list (string + pydict)) :=
  match p with
  | PNull => None
  | PDict d => Some (inl <$> (map_to_list d).*1)
  | PList l => Some (inr <$> l)
  end.

(** [user_data_store[user_id]['numbers']], when both keys are there. *)
Definition owned_numbers (w : world) (uid : Z) : option (list pyval) :=
  user_data_store w !! uid ≫= numbers.

(** The three statements of [purchase_for_country] that store the number
    under the user. *)
Definition ensure_user (uid : Z) (store : gmap Z user_record) : gmap Z user_record :=
  match store !! uid with
  | None => <[uid := {| user_profile := None; numbers := None |}]> store
  | Some _ => store
  end.

Definition ensure_numbers (uid : Z) (store : gmap Z user_record) : gmap Z user_record :=
  alter (fun r => match numbers r with
                  | None => {| user_profile := user_profile r; numbers := Some [] |}
                  | Some _ => r
                  end) uid store.

Definition append_number (uid : Z) (number_id : pyval) (store : gmap Z user_record) : gmap Z user_record :=
  alter (fun r => {| user_profile := user_profile r;
                     numbers := (fun l => l ++ [number_id]) <$> numbers r |}) uid store.

Definition welcome_message (first_name : string) : string :=
  "
🚀 *Welcome to Virtual Number Bot, " +:+ first_name +:+ "!*

*Available Features:*
• 📱 Get virtual numbers from multiple countries
• 📨 Receive SMS messages on Telegram
• 🌍 100+ countries available
• ⚡ Real-time SMS forwarding

*Quick Commands:*
/start - Show this menu
/countries - Browse available countries
/purchase - Buy a new virtual number
/mysms - Check received SMS
/help - Get help information

Select an option below to get started:
".

Definition help_text : string :=
  "
🤖 *Virtual Number Bot - Help Guide*

*Available Commands:*
/start - Start the bot
/countries - Show all available countries
/purchase - Purchase a virtual number
/mysms - View received SMS
/active - View active numbers
/cancel - Cancel a virtual number
/help - Show this help message

*How It Works:*
1. Select a country from the list
2. Purchase a virtual number
3. Use the number for SMS verification
4. Receive SMS directly in Telegram
5. SMS are forwarded in real-time

*Important Notes:*
• Numbers are rented and have expiration
• SMS forwarding may have a slight delay
• Some services may block virtual numbers
• Check country compatibility before purchase

*Support:* Contact @admin for assistance
".

Definition items_per_page : Z := 10.

(** One row of the country keyboard. *)
Definition country_button (country : pydict) : list InlineKeyboardButton :=
  let country_code := dict_get_default country "country_code" (PyStr "") in
  let country_name := dict_get_default country "country_name" (PyStr "Unknown") in
  let emoji := dict_get_default country "emoji" (PyStr "🌐") in
  let price := dict_get_default country "price" (PyStr "N/A") in
  [ {| label := py_str emoji +:+ " " +:+ py_str country_name +:+ " - $" +:+ py_str price;
       callback_data := "select_country_" +:+ py_str country_code |} ].

Definition previous_button (page : Z) : InlineKeyboardButton :=
  {| label := "⬅️ Previous"; callback_data := "country_page_" +:+ pretty (page - 1) |}.

Definition next_button (page : Z) : InlineKeyboardButton :=
  {| label := "Next ➡️"; callback_data := "country_page_" +:+ pretty (page + 1) |}.

Definition main_menu_button : InlineKeyboardButton :=
  {| label := "🏠 Main Menu"; callback_data := "main_menu" |}.

Definition nav_buttons (page : Z) (end_idx : Z) (len : Z) : list InlineKeyboardButton :=
  (if decide (page > 0) then [previous_button page] else []) ++
  (if decide (end_idx < len) then [next_button page] else []).

Definition countries_text (len : Z) (page : Z) : string :=
  "🌍 *Available Countries* (" +:+ pretty len +:+ " total)
" +:+ "Page " +:+ pretty (page + 1) +:+ " of " +:+ pretty ((len - 1) `div` items_per_page + 1) +:+ "

" +:+ "Select a country to purchase a number:".

(** The keyboard [show_countries_page] builds from a listing. *)
Definition countries_keyboard (countries : list pydict) (page : Z) : InlineKeyboardMarkup :=
  let start_idx := page * items_per_page in
  let end_idx := start_idx + items_per_page in
  let current_countries := py_slice countries start_idx end_idx in
  let keyboard := country_button <$> current_countries in
  let nav := nav_buttons page end_idx (Z.of_nat (length countries)) in
  keyboard ++ (if decide (nav = []) then [] else [nav]) ++ [[main_menu_button]].

Section Handlers.

Context (net : network) (RAPIDAPI_KEY : string).

Definition api_client : VirtualNumberAPI.t := VirtualNumberAPI.init RAPIDAPI_KEY.

(** The dictionary [start] stores for a user. *)
Definition started_record (user : tg_user) (now : string) : user_record :=
  {| user_profile := Some {| username := tg_username user;
                             first_name := tg_first_name user;
                             join_date := now |};
     numbers := None |}.

Definition start (update : Update) (now : string) : M unit :=
  let user := effective_user update in
  modify (set_user_data_store <[id user := started_record user now]>) ;;;
  let keyboard :=
    [ [ {| label := "📱 List Countries"; callback_data := "list_countries" |} ];
      [ {| label := "🛒 Purchase Number"; callback_data := "purchase_menu" |} ];
      [ {| label := "📨 My SMS"; callback_data := "my_sms" |} ];
      [ {| label := "❓ Help"; callback_data := "help" |} ] ] in
  update_message_reply_text update (welcome_message (tg_first_name user))
    (Some keyboard) MARKDOWN.

Definition help_command (update : Update) : M unit :=
  update_message_reply_text update help_text None MARKDOWN.

(** [message] is a message of the bot's own, so editing it cannot fail. *)
Definition show_countries_page (update : Update) (page : Z) : M unit :=
  w <- get_world ;;
  let countries :=
    default (PList []) (user_data w !! id (effective_user update) ≫= countries) in
  match countries with
  | PNull => raise (RuntimeFault "TypeError: 'NoneType' object is not subscriptable")
  | PDict _ => raise (RuntimeFault "a dict cannot be sliced")
  | PList l =>
      message_edit_text (countries_text (Z.of_nat (length l)) page)
        (Some (countries_keyboard l page)) MARKDOWN
  end.

Definition list_countries_command (update : Update) : M unit :=
  update_message_reply_text update "🔄 Fetching available countries..." None PlainText ;;;
  result <- VirtualNumberAPI.get_all_countries net api_client ;;
  if success result then
    let countries := default (PList []) (data result) in
    if payload_truthy countries then
      let page := 0 in
      modify (set_user_data
                <[id (effective_user update) :=
                    {| countries := Some countries; country_page := Some page |}]>) ;;;
      show_countries_page update page
    else
      message_edit_text "❌ No countries available at the moment." None PlainText
  else
    let error_msg := default (PyStr "Unknown error") (error result) in
    message_edit_text ("❌ Error fetching countries: " +:+ py_str error_msg) None PlainText.

Definition purchased_text (phone_number : pyval) (country_code : string) (number_id : pyval) : string :=
  "✅ *Number Purchased Successfully!*

" +:+ "📱 *Number:* " +:+ py_str phone_number +:+ "
" +:+ "🌍 *Country:* " +:+ country_code +:+ "
" +:+ "🆔 *ID:* " +:+ py_str number_id +:+ "

" +:+ "*Instructions:*
" +:+ "1. Use this number for SMS verification
" +:+ "2. SMS will be forwarded here automatically
" +:+ "3. Use /mysms to check messages
" +:+ "4. Use /cancel " +:+ py_str number_id +:+ " to cancel

" +:+ "📨 SMS forwarding is now active!".

Definition purchase_for_country (update : Update) (country_code : string) (now : string) : M unit :=
  let user_id := id (effective_user update) in
  callback_message_reply_text update
    ("🔄 Purchasing number for " +:+ country_code +:+ "...") None PlainText ;;;
  result <- VirtualNumberAPI.purchase_number net api_client country_code "telegram" ;;
  if success result then
    number_data <- match default (PDict ∅) (data result) with
                   | PDict d => ret d
                   | PList _ => raise (RuntimeFault "AttributeError: 'list' object has no attribute 'get'")
                   | PNull => raise (RuntimeFault "AttributeError: 'NoneType' object has no attribute 'get'")
                   end ;;
    let number_id := dict_get number_data "number_id" in
    let phone_number := dict_get number_data "phone_number" in
    modify (set_purchased_numbers
              <[number_id := {| user_id := user_id; country_code := country_code;
                                phone_number := phone_number; purchase_date := now;
                                status := active |}]>) ;;;
    modify (set_user_data_store (ensure_user user_id)) ;;;
    modify (set_user_data_store (ensure_numbers user_id)) ;;;
    modify (set_user_data_store (append_number user_id number_id)) ;;;
    message_edit_text (purchased_text phone_number country_code number_id) None MARKDOWN
  else
    let error_msg := default (PyStr "Purchase failed") (error result) in
    message_edit_text ("❌ Purchase failed: " +:+ py_str error_msg) None PlainText.

Definition purchase_menu : InlineKeyboardMarkup :=
  [ [ {| label := "🇺🇸 USA (+1)"; callback_data := "select_country_US" |} ];
    [ {| label := "🇬🇧 UK (+44)"; callback_data := "select_country_GB" |} ];
    [ {| label := "🇨🇦 Canada (+1)"; callback_data := "select_country_CA" |} ];
    [ {| label := "🇦🇺 Australia (+61)"; callback_data := "select_country_AU" |} ];
    [ {| label := "🌍 Browse All Countries"; callback_data := "list_countries" |} ];
    [ {| label := "🔙 Back"; callback_data := "main_menu" |} ] ].

(** [args] is [context.args], empty when it is [None]. *)
Definition purchase_number_command (update : Update) (args : list string) (now : string) : M unit :=
  match args with
  | country_code :: _ => purchase_for_country update country_code now
  | [] =>
      update_message_reply_text update
        ("🛒 *Purchase Virtual Number*

" +:+ "Select a country or browse all:") (Some purchase_menu) MARKDOWN
  end.

(** The keyboard rows of [my_sms_command]: one per number among the first
    five owned that the registry knows. *)
Definition sms_rows (w : world) (user_numbers : list pyval) : InlineKeyboardMarkup :=
  omap (fun number_id =>
          number_info ← purchased_numbers w !! number_id;
          Some [ {| label := "📱 " +:+ py_str (phone_number number_info);
                    callback_data := "view_sms_" +:+ py_str number_id |} ])
       (py_slice user_numbers 0 5).

Definition my_sms_command (update : Update) : M unit :=
  let user_id := id (effective_user update) in
  w <- get_world ;;
  match owned_numbers w user_id with
  | None => update_message_reply_text update "📭 You don't have any active numbers." None PlainText
  | Some user_numbers =>
      if decide (user_numbers = []) then
        update_message_reply_text update "📭 You don't have any active numbers." None PlainText
      else
        let keyboard := sms_rows w user_numbers in
        if decide (keyboard = []) then
          update_message_reply_text update "📭 No active numbers found." None PlainText
        else
          update_message_reply_text update
            ("📨 *My SMS Messages*

" +:+ "Select a number to view received SMS:")
            (Some (keyboard ++
                   [ [ {| label := "🔄 Refresh"; callback_data := "refresh_sms" |} ];
                     [ main_menu_button ] ])) MARKDOWN
  end.

(** The first loop of [active_numbers_command]. *)
Definition active_numbers_of (w : world) (user_numbers : list pyval) : list number_info :=
  omap (fun number_id =>
          match purchased_numbers w !! number_id with
          | Some number_info =>
              if decide (status number_info = active) then Some number_info else None
          | None => None
          end) user_numbers.

(** One entry of the rendered list; [number_id] is whatever the variable
    of that name holds when the second loop runs. *)
Definition active_entry (number_id : pyval) (num : number_info) : string :=
  "• *Number:* " +:+ py_str (phone_number num) +:+ "
" +:+ "  *Country:* " +:+ country_code num +:+ "
" +:+ "  *ID:* `" +:+ py_str number_id +:+ "`
" +:+ "  *Since:* " +:+ str_prefix 10 (purchase_date num) +:+ "

".

Fixpoint concat_str (l : list string) : string :=
  match l with
  | [] => ""
  | s :: l' => s +:+ concat_str l'
  end.

(** The second loop reads [number_id], which the first loop left bound to
    the last element of the user's list. *)
Definition active_numbers_command (update : Update) : M unit :=
  let user_id := id (effective_user update) in
  w <- get_world ;;
  match owned_numbers w user_id with
  | None => update_message_reply_text update "📱 You don't have any active numbers." None PlainText
  | Some user_numbers =>
      let active_numbers := active_numbers_of w user_numbers in
      if decide (active_numbers = []) then
        update_message_reply_text update "📱 You don't have any active numbers." None PlainText
      else
        match last user_numbers with
        | None => raise (RuntimeFault "NameError: name 'number_id' is not defined")
        | Some number_id =>
            let message :=
              "📱 *Your Active Numbers*

" +:+ concat_str (active_entry number_id <$> active_numbers)
              +:+ "Use /cancel <number_id> to cancel a number." in
            update_message_reply_text update message None MARKDOWN
        end
  end.

(** [context.args[0]] is a string, whatever the provider's ids are. *)
Definition cancel_number_command (update : Update) (args : list string) : M unit :=
  match args with
  | [] => update_message_reply_text update "Usage: /cancel <number_id>" None PlainText
  | arg :: _ =>
      let number_id := PyStr arg in
      let user_id := id (effective_user update) in
      w <- get_world ;;
      if negb (bool_decide (is_Some (user_data_store w !! user_id)))
         || negb (bool_decide (is_Some (owned_numbers w user_id)))
         || negb (bool_decide (number_id ∈ default [] (owned_numbers w user_id)))
      then
        update_message_reply_text update "❌ Number not found or doesn't belong to you." None PlainText
      else if negb (bool_decide (is_Some (purchased_numbers w !! number_id))) then
        update_message_reply_text update "❌ Number not found." None PlainText
      else
        result <- VirtualNumberAPI.cancel_number net api_client number_id ;;
        if success result then
          modify (set_purchased_numbers (alter (set_status cancelled) number_id)) ;;;
          update_message_reply_text update
            ("✅ Number " +:+ py_str number_id +:+ " cancelled successfully.") None PlainText
        else
          let error_msg := default (PyStr "Cancellation failed") (error result) in
          update_message_reply_text update
            ("❌ Cancellation failed: " +:+ py_str error_msg) None PlainText
  end.

Definition sms_entry (msg : pydict) : string :=
  let sender := dict_get_default msg "sender" (PyStr "Unknown") in
  let message := dict_get_default msg "message" (PyStr "") in
  let timestamp := dict_get_default msg "timestamp" (PyStr "") in
  "*From:* " +:+ py_str sender +:+ "
" +:+ "*Time:* " +:+ py_str timestamp +:+ "
" +:+ "*Message:* " +:+ py_str message +:+ "
" +:+ str_repeat "─" 30 +:+ "
".

Definition view_sms_messages (update : Update) (number_id : string) : M unit :=
  result <- VirtualNumberAPI.get_sms net api_client (PyStr number_id) ;;
  text <- (if success result then
             let messages := default (PList []) (data result) in
             if payload_truthy messages then
               match messages with
               | PNull => raise (RuntimeFault "TypeError: 'NoneType' object is not subscriptable")
               | PDict _ => raise (RuntimeFault "a dict cannot be sliced")
               | PList l =>
                   ret ("📨 *SMS Messages for " +:+ number_id +:+ "*

" +:+ concat_str (sms_entry <$> py_slice l 0 10))
               end
             else ret ("📭 No SMS messages found for " +:+ number_id)
           else
             ret ("❌ Error fetching SMS: "
                  +:+ py_str (default (PyStr "Unknown error") (error result)))) ;;
  let keyboard :=
    [ [ {| label := "🔄 Refresh"; callback_data := "view_sms_" +:+ number_id |} ];
      [ {| label := "📱 My Numbers"; callback_data := "my_sms" |} ];
      [ main_menu_button ] ] in
  query_edit_message_text update text (Some keyboard) MARKDOWN.

(** The body run for one entry of the registry by the poll loop. *)
Definition check_one (entry : pyval * number_info) : M unit :=
  let '(number_id, number_info) := entry in
  if decide (status number_info = active) then
    result <- VirtualNumberAPI.get_sms net api_client number_id ;;
    if success result then
      let messages := default (PList []) (data result) in
      match payload_elements messages with
      | Some msgs => for_each msgs (fun msg => ret tt)
      | None => raise (RuntimeFault "TypeError: 'NoneType' object is not iterable")
      end
    else ret tt
  else ret tt.

(** The body of [check_sms_scheduler].  The entries are visited in the
    order of [map_to_list], which is not the insertion order of the Python
    dictionary. *)
Definition check_sms_scheduler : M unit :=
  w <- get_world ;;
  for_each (map_to_list (purchased_numbers w)) check_one.

(** [check_sms_scheduler(application)]: the function is [async def], so
    the call runs nothing of the body and returns a coroutine of it. *)
Definition check_sms_scheduler_call : M (coroutine unit) :=
  ret (Coroutine check_sms_scheduler).

(** One firing of the job that [main] adds to its [BackgroundScheduler]:
    the executor calls the function in a worker thread and drops what the
    call returns.  Nothing awaits the coroutine. *)
Definition scheduler_firing : M unit :=
  _ <- check_sms_scheduler_call ;;
  ret tt.

(** The callback data of a button press, decoded as [button_handler] reads
    it: the exact payloads, the three prefixed ones with what follows the
    last underscore, and anything else. *)
Inductive callback :=
| main_menu
| list_countries
| purchase_menu_cb
| my_sms
| help
| country_page_ (page : Z)
| select_country_ (country_code : string)
| view_sms_ (number_id : string)
| unhandled.

Definition button_handler (update : Update) (data : callback) (now : string) : M unit :=
  match data with
  | main_menu => start update now
  | list_countries => list_countries_command update
  | purchase_menu_cb => purchase_number_command update [] now
  | my_sms => my_sms_command update
  | help => help_command update
  | country_page_ page =>
      modify (set_user_data
                (fun ud =>
                   <[id (effective_user update) :=
                       {| countries := ud !! id (effective_user update) ≫= countries;
                          country_page := Some page |}]> ud)) ;;;
      show_countries_page update page
  | select_country_ country_code => purchase_for_country update country_code now
  | view_sms_ number_id => view_sms_messages update number_id
  | unhandled => ret tt
  end.

(** ** Events *)

Inductive command :=
| cmd_start
| cmd_help
| cmd_countries
| cmd_purchase (args : list string)
| cmd_mysms
| cmd_active
| cmd_cancel (args : list string).

(** What the application reacts to: a command message, a button press, a
    firing of the scheduler.  [now] is the clock reading during it. *)
Inductive event :=
| on_command (user : tg_user) (c : command) (now : string)
| on_button (user : tg_user) (data : callback) (now : string)
| on_timer.

Definition handle (e : event) : M unit :=
  match e with
  | on_command user c now =>
      let update := {| effective_user := user; kind := Command |} in
      match c with
      | cmd_start => start update now
      | cmd_help => help_command update
      | cmd_countries => list_countries_command update
      | cmd_purchase args => purchase_number_command update args now
      | cmd_mysms => my_sms_command update
      | cmd_active => active_numbers_command update
      | cmd_cancel args => cancel_number_command update args
      end
  | on_button user data now =>
      button_handler {| effective_user := user; kind := CallbackQuery |} data now
  | on_timer => scheduler_firing
  end.

(** The events that run [start]: the command and the main-menu button. *)
Definition is_start (e : event) : bool :=
  match e with
  | on_command _ cmd_start _ | on_button _ main_menu _ => true
  | _ => false
  end.

(** An exception raised by a handler is logged by the framework; the
    application goes on with the world as the handler left it. *)
Definition step (w : world) (e : event) : world := (handle e w).2.

Definition run (es : list event) (w : world) : world := foldl step w es.

End Handlers.

(** ** The client's operations, as one family *)

Inductive api_operation :=
| op_get_all_countries
| op_purchase_number (country_code service : string)
| op_get_sms (number_id : pyval)
| op_get_active_numbers
| op_cancel_number (number_id : pyval).

Definition perform (net : network) (self : VirtualNumberAPI.t) (op : api_operation) : M json_body :=
  match op with
  | op_get_all_countries => VirtualNumberAPI.get_all_countries net self
  | op_purchase_number c s => VirtualNumberAPI.purchase_number net self c s
  | op_get_sms n => VirtualNumberAPI.get_sms net self n
  | op_get_active_numbers => VirtualNumberAPI.get_active_numbers net self
  | op_cancel_number n => VirtualNumberAPI.cancel_number net self n
  end.

Definition request_of (self : VirtualNumberAPI.t) (op : api_operation) : request :=
  match op with
  | op_get_all_countries => VirtualNumberAPI.get_all_countries_request self
  | op_purchase_number c s => VirtualNumberAPI.purchase_number_request self c s
  | op_get_sms n => VirtualNumberAPI.get_sms_request self n
  | op_get_active_numbers => VirtualNumberAPI.get_active_numbers_request self
  | op_cancel_number n => VirtualNumberAPI.cancel_number_request self n
  end.

(** What a client operation hands back for an answer of the network. *)
Definition result_of_answer (a : request_exception + response) : json_body :=
  match a with
  | inl e => failure_result e
  | inr resp =>
      match http_error resp with
      | Some msg => failure_result (RequestExc HTTPError msg)
      | None =>
          match parsed resp with
          | inl msg => failure_result (RequestExc JSONDecodeError msg)
          | inr body => body
          end
      end
  end.

(** ** A concrete provider and two users *)

Module Scenario.

Definition alice : tg_user := {| id := 1; tg_username := Some "alice"; tg_first_name := "Alice" |}.
Definition bob : tg_user := {| id := 2; tg_username := None; tg_first_name := "Bob" |}.

Definition key : string := "secret".

Definition sold (country_code : string) : pydict :=
  if decide (country_code = "US")
  then {[ "number_id" := PyStr "123"; "phone_number" := PyStr "+15550100" ]}
  else {[ "number_id" := PyStr "456"; "phone_number" := PyStr "+447700900123" ]}.

(** Twelve countries on offer. *)
Definition listing : list pydict :=
  (fun c => {[ "country_code" := PyStr c; "country_name" := PyStr c; "price" := PyInt 2 ]})
    <$> ["US"; "GB"; "CA"; "AU"; "DE"; "FR"; "IT"; "ES"; "NL"; "SE"; "PL"; "PT"].

(** A provider that lists the twelve countries, sells number 123 for the
    US and 456 for any other country, accepts every cancel and has no
    SMS. *)
Definition provider : network := fun _ r =>
  inr {| http_error := None;
         parsed := inr
           match method r with
           | POST =>
               let c := match json r with
                        | Some (("country_code", c) :: _) => c
                        | _ => ""
                        end in
               {| success := true; data := Some (PDict (sold c)); error := None |}
           | DELETE => {| success := true; data := None; error := None |}
           | GET =>
               if decide (url r = "https://virtual-number.p.rapidapi.com/api/v1/e-sim/all-countries")
               then {| success := true; data := Some (PList listing); error := None |}
               else {| success := true; data := Some (PList []); error := None |}
           end |}.

(** A network on which every request times out. *)
Definition unreachable : network := fun _ _ =>
  inl {| exc_class := Timeout; exc_str := "Read timed out. (read timeout=10)" |}.

Definition t0 : string := "2024-05-01T10:00:00.000000".
Definition t1 : string := "2024-05-01T10:05:00.000000".
Definition t2 : string := "2024-05-01T10:06:00.000000".

Definition buy (u : tg_user) (country_code : string) (now : string) : event :=
  on_button u (select_country_ country_code) now.

(** Alice has bought number 123. *)
Definition w_bought : world := run provider key [buy alice "US" t0] empty_world.

(** Alice has bought 123 and then cancelled it. *)
Definition w_cancelled : world :=
  run provider key [buy alice "US" t0; on_command alice (cmd_cancel ["123"]) t1] empty_world.

(** Alice has bought 123 and then 456. *)
Definition w_two : world :=
  run provider key [buy alice "US" t0; buy alice "GB" t1] empty_world.

(** Alice has bought 123 and then sent /start. *)
Definition w_restarted : world :=
  run provider key [buy alice "US" t0; on_command alice cmd_start t1] empty_world.

(** Alice has sent /countries and is looking at the first page. *)
Definition w_browsing : world :=
  run provider key [on_command alice cmd_countries t0] empty_world.

End Scenario.

(** ** Handlers that only reply *)

(** The world with no message sent yet. *)
Definition fresh (w : world) : world := set_outbox (fun _ => []) w.

(** A handler is reply-only when all it does to the world is to append the
    messages it would send from the same world with an empty outbox. *)
Definition reply_only (c : M unit) : Prop :=
  ∀ w, c w = ((c (fresh w)).1, set_outbox (fun o => o ++ outbox (c (fresh w)).2) w).

(** ** Creation of a number *)

(** The number a purchase registers, read off the client's result as
    [purchase_for_country] reads it: its id and its phone number. *)
Definition purchased (result : json_body) : option (pyval * pyval) :=
  if success result then
    match default (PDict ∅) (data result) with
    | PDict d => Some (dict_get d "number_id", dict_get d "phone_number")
    | PList _ | PNull => None
    end
  else None.

Section Lifetime.

Context (net : network) (RAPIDAPI_KEY : string).

(** What the client returns for a purchase made in world [w]. *)
Definition purchase_answer (w : world) (country_code : string) : json_body :=
  result_of_answer
    (net (http_log w)
       (VirtualNumberAPI.purchase_number_request (api_client RAPIDAPI_KEY)
          country_code "telegram")).

(** The id of the number that handling [e] in [w] creates, if it creates
    one: only a press of a country button purchases. *)
Definition created_id (w : world) (e : event) : option pyval :=
  match e with
  | on_button _ (select_country_ country_code) _ =>
      fst <$> purchased (purchase_answer w country_code)
  | _ => None
  end.

(** Whether some event of [es], handled in turn from [w], creates a number
    under the id [n] again. *)
Fixpoint recreated (n : pyval) (w : world) (es : list event) : bool :=
  match es with
  | [] => false
  | e :: es' =>
      bool_decide (created_id w e = Some n)
      || recreated n (step net RAPIDAPI_KEY w e) es'
  end.

(** The owner rule as the specification words it: once a purchase by
    [user] has created number [n], the registry records [user] as the owner
    of [n] after any further events, purchases of other users among them. *)
Definition owner_kept_as_specified (w : world) (user : tg_user) (c now : string)
    (n : pyval) (es : list event) : Prop :=
  let purchase := on_button user (select_country_ c) now in
  let w1 := step net RAPIDAPI_KEY w purchase in
  created_id w purchase = Some n →
  (user_id <$> purchased_numbers (run net RAPIDAPI_KEY es w1) !! n) = Some (id user).

End Lifetime.

(** ** Outcomes of a cancel command *)

Definition cancel_ok_message (arg : string) : bot_message :=
  reply_text ("✅ Number " +:+ arg +:+ " cancelled successfully.") None PlainText.

Definition not_found_or_not_yours : bot_message :=
  reply_text "❌ Number not found or doesn't belong to you." None PlainText.

Definition not_found : bot_message :=
  reply_text "❌ Number not found." None PlainText.

Section CancelOutcome.

Context (net : network) (RAPIDAPI_KEY : string).

(** What the client returns for a cancel made in world [w]. *)
Definition cancel_answer (w : world) (number_id : pyval) : json_body :=
  result_of_answer
    (net (http_log w)
       (VirtualNumberAPI.cancel_number_request (api_client RAPIDAPI_KEY) number_id)).

Definition cancel_event (user : tg_user) (arg : string) (now : string) : event :=
  on_command user (cmd_cancel [arg]) now.

(** The command succeeded: the one message it sent is the confirmation. *)
Definition cancel_succeeds (w : world) (user : tg_user) (arg : string) (now : string) : Prop :=
  outbox (step net RAPIDAPI_KEY w (cancel_event user arg now))
  = outbox w ++ [cancel_ok_message arg].

(** The last message a cancel command leaves in the outbox. *)
Definition cancel_reply (w : world) (user : tg_user) (arg : string) (now : string) : option bot_message :=
  last (outbox (step net RAPIDAPI_KEY w (cancel_event user arg now))).

(** The cancel rule as the specification words it: success exactly for a
    registered number whose recorded owner is the caller and whose status
    is active, and no change of the stores otherwise. *)
Definition cancel_rule_as_specified (w : world) (user : tg_user) (arg : string) (now : string) : Prop :=
  let w' := step net RAPIDAPI_KEY w (cancel_event user arg now) in
  (cancel_succeeds w user arg now ↔
   ∃ info, purchased_numbers w !! PyStr arg = Some info
           ∧ user_id info = id user ∧ status info = active)
  ∧ (¬ cancel_succeeds w user arg now →
     purchased_numbers w' = purchased_numbers w
     ∧ user_data_store w' = user_data_store w).

(** The two errors as the specification words them: cancelling an id the
    registry does not know and cancelling a number recorded for another
    user are answered differently. *)
Definition cancel_errors_as_specified (w : world) (user : tg_user) (unknown foreign : string) (now : string) : Prop :=
  purchased_numbers w !! PyStr unknown = None →
  (∃ info, purchased_numbers w !! PyStr foreign = Some info ∧ user_id info ≠ id user) →
  cancel_reply w user unknown now ≠ cancel_reply w user foreign now.

End CancelOutcome.

(** ** Answers of the poll loop *)



(** ** Ownership *)

(** The id [n] is in the owned list of user [u]. *)
Definition owned_by (w : world) (u : Z) (n : pyval) : Prop :=
  ∃ l, owned_numbers w u = Some l ∧ n ∈ l.

(** Every registered number is in the owned list of its recorded owner and
    of nobody else. *)
Definition exactly_one_owner (w : world) : Prop :=
  ∀ n info, purchased_numbers w !! n = Some info →
            ∀ u, owned_by w u n ↔ u = user_id info.

Definition listed_are_registered (w : world) : Prop :=
  ∀ u n, owned_by w u n → is_Some (purchased_numbers w !! n).

Section Discipline.

Context (net : network) (RAPIDAPI_KEY : string).

(** No event of [es] runs [start], and every number created gets an id
    the registry does not hold yet. *)
Fixpoint disciplined (w : world) (es : list event) : bool :=
  match es with
  | [] => true
  | e :: es' =>
      negb (is_start e)
      && match created_id net RAPIDAPI_KEY w e with
         | Some n => bool_decide (purchased_numbers w !! n = None)
         | None => true
         end
      && disciplined (step net RAPIDAPI_KEY w e) es'
  end.

End Discipline.

(** ** Decoding the callback data *)

(** [s.split(sep)]: the segments between the separators, at least one. *)
Fixpoint py_split (sep : Ascii.ascii) (s : string) : list string :=
  match s with
  | EmptyString => [""]
  | String c s' =>
      if decide (c = sep) then "" :: py_split sep s'
      else match py_split sep s' with
           | seg :: rest => String c seg :: rest
           | [] => [String c ""]
           end
  end.

(** [data.split('_')[-1]]. *)
Definition last_segment (data : string) : string :=
  default "" (last (py_split "_"%char data)).

(** [data.startswith(p)]. *)
Definition startswith (data p : string) : bool := String.prefix p data.

(** The characters [int] skips around a number: tab, line feed, vertical
    tab, form feed, carriage return and space. *)
Definition is_space (c : Ascii.ascii) : bool :=
  let n := Ascii.nat_of_ascii c in
  bool_decide (9 ≤ n ≤ 13)%nat || bool_decide (n = 32)%nat.

Definition digit_of (c : Ascii.ascii) : option Z :=
  let n := Z.of_nat (Ascii.nat_of_ascii c) in
  if decide (48 ≤ n ≤ 57) then Some (n - 48) else None.

Fixpoint lstrip (s : string) : string :=
  match s with
  | String c s' => if is_space c then lstrip s' else s
  | EmptyString => s
  end.

Fixpoint only_spaces (s : string) : bool :=
  match s with
  | String c s' => is_space c && only_spaces s'
  | EmptyString => true
  end.

(** The digits that follow, then spaces only, up to the end. *)
Fixpoint int_digits (acc : Z) (s : string) : option Z :=
  match s with
  | EmptyString => Some acc
  | String c s' =>
      match digit_of c with
      | Some d => int_digits (10 * acc + d) s'
      | None => if only_spaces s then Some acc else None
      end
  end.

Definition int_unsigned (s : string) : option Z :=
  match s with
  | String c s' => d ← digit_of c; int_digits d s'
  | EmptyString => None
  end.

Fixpoint digit_count (s : string) : nat :=
  match s with
  | String c s' => (if digit_of c is Some _ then 1 else 0) + digit_count s'
  | EmptyString => 0
  end.

Fixpoint is_ascii (s : string) : bool :=
  match s with
  | String c s' => bool_decide (Ascii.nat_of_ascii c < 128)%nat && is_ascii s'
  | EmptyString => true
  end.

Fixpoint has_underscore (s : string) : bool :=
  match s with
  | String c s' => bool_decide (c = "_"%char) || has_underscore s'
  | EmptyString => false
  end.

Fixpoint all_digits (s : string) : bool :=
  match s with
  | String c s' => bool_decide (is_Some (digit_of c)) && all_digits s'
  | EmptyString => true
  end.

Section Decoding.

(** What [int] makes of a string that has characters beyond ASCII (a digit
    or a space of another script), which the byte strings here do not
    tell; and [sys.int_max_str_digits], the number of digits beyond which
    [int] refuses a string, 0 when there is no limit. *)
Context (int_beyond_ascii : string → option Z) (int_max_str_digits : nat).

Definition within_digit_limit (s : string) : bool :=
  bool_decide (int_max_str_digits = 0)%nat
  || bool_decide (digit_count s ≤ int_max_str_digits)%nat.

(** [int(s)] for a string [s] of ASCII characters without underscore
    ([None] stands for [ValueError]): spaces, an optional sign, decimal
    digits, spaces. *)
Definition int_ascii (s : string) : option Z :=
  if within_digit_limit s then
    match lstrip s with
    | String "+"%char r => int_unsigned r
    | String "-"%char r => Z.opp <$> int_unsigned r
    | t => int_unsigned t
    end
  else None.

(** [int(data.split('_')[-1])]. *)
Definition int_of_last_segment (data : string) : option Z :=
  let seg := last_segment data in
  if is_ascii seg then int_ascii seg else int_beyond_ascii seg.

(** The chain of tests of [button_handler] on [query.data], up to the call
    it ends in; [int] may raise. *)
Definition decode_callback (data : string) : outcome callback :=
  if decide (data = "main_menu") then Done main_menu
  else if decide (data = "list_countries") then Done list_countries
  else if decide (data = "purchase_menu") then Done purchase_menu_cb
  else if decide (data = "my_sms") then Done my_sms
  else if decide (data = "help") then Done help
  else if startswith data "country_page_" then
    match int_of_last_segment data with
    | Some page => Done (country_page_ page)
    | None => Raised (RuntimeFault "ValueError: invalid literal for int() with base 10")
    end
  else if startswith data "select_country_" then Done (select_country_ (last_segment data))
  else if startswith data "view_sms_" then Done (view_sms_ (last_segment data))
  else Done unhandled.

Context (net : network) (RAPIDAPI_KEY : string).

(** [button_handler] on the callback data as it arrives. *)
Definition button_press (update : Update) (data : string) (now : string) : M unit :=
  match decode_callback data with
  | Done cb => button_handler net RAPIDAPI_KEY update cb now
  | Raised e => raise e
  end.

End Decoding.

(** ** Who an event comes from *)

Definition event_user (e : event) : option Z :=
  match e with
  | on_command user _ _ | on_button user _ _ => Some (id user)
  | on_timer => None
  end.

(** Whether [e] is neither a purchase nor a cancel nor a [start] of user
    [u]: not a press of a country button, not a cancel command, and not
    the start command or main-menu button of [u]. *)
Definition quiet_for (u : Z) (e : event) : bool :=
  match e with
  | on_button _ (select_country_ _) _ | on_command _ (cmd_cancel _) _ => false
  | on_command user cmd_start _ | on_button user main_menu _ => bool_decide (id user ≠ u)
  | _ => true
  end.

(** ** Further providers *)

Module Edge.

(** A provider whose purchase answer reports success and carries no data. *)
Definition careless : network := fun _ _ =>
  inr {| http_error := None;
         parsed := inr {| success := true; data := None; error := None |} |}.

(** A provider whose answers report success with a ['data'] that is
    [null]. *)
Definition hollow : network := fun _ _ =>
  inr {| http_error := None;
         parsed := inr {| success := true; data := Some PNull; error := None |} |}.

(** A provider whose number ids are JSON integers. *)
Definition numeric : network := fun _ r =>
  inr {| http_error := None;
         parsed := inr
           match method r with
           | POST =>
               {| success := true;
                  data := Some (PDict {[ "number_id" := PyInt 77;
                                         "phone_number" := PyStr "+15550177" ]});
                  error := None |}
           | _ => {| success := true; data := None; error := None |}
           end |}.

(** The record of number 123 of the scenario, with a given status. *)
Definition record_123 (st : number_status) : number_info :=
  {| user_id := 1; country_code := "US"; phone_number := PyStr "+15550100";
     purchase_date := Scenario.t0; status := st |}.

(** A provider that answers every request with a failure in the body. *)
Definition refusing : network := fun _ _ =>
  inr {| http_error := None;
         parsed := inr {| success := false; data := None;
                          error := Some (PyStr "No numbers in stock") |} |}.

End Edge.

(** ** Intermediate worlds *)

(** The world after the first message and the request of a purchase. *)
Definition asked (RAPIDAPI_KEY : string) (w : world) (c : string) : world :=
  set_http_log
    (fun l => l ++ [VirtualNumberAPI.purchase_number_request (api_client RAPIDAPI_KEY)
                      c "telegram"])
    (set_outbox
       (fun o => o ++ [reply_text ("🔄 Purchasing number for " +:+ c +:+ "...") None PlainText])
       w).

(** The world after the first message and the request of [/countries]. *)
Definition fetching (RAPIDAPI_KEY : string) (w : world) : world :=
  set_http_log
    (fun l => l ++ [VirtualNumberAPI.get_all_countries_request (api_client RAPIDAPI_KEY)])
    (set_outbox
       (fun o => o ++ [reply_text "🔄 Fetching available countries..." None PlainText])
       w).

(** The number of pages that [show_countries_page] prints. *)
Definition total_pages (len : Z) : Z := (len - 1) `div` items_per_page + 1.

(** ** The provider calls of an event *)

(** The client operations that handling a command or a button press in
    world [w] performs. *)
Definition requested (w : world) (e : event) : list api_operation :=
  match e with
  | on_command _ cmd_countries _ => [op_get_all_countries]
  | on_command user (cmd_cancel (arg :: _)) _ =>
      if bool_decide (PyStr arg ∈ default [] (owned_numbers w (id user)))
         && bool_decide (is_Some (purchased_numbers w !! PyStr arg))
      then [op_cancel_number (PyStr arg)]
      else []
  | on_button _ (select_country_ c) _ => [op_purchase_number c "telegram"]
  | on_button _ (view_sms_ number_id) _ => [op_get_sms (PyStr number_id)]
  | _ => []
  end.

(** ** Frames *)

(** A computation preserves a component of the world when that component
    is the same after it as before, however it ends. *)
Definition preserves {A S} (proj : world → S) (c : M A) : Prop :=
  ∀ w, proj (c w).2 = proj w.

(** * Properties *)

(** ** The provider client *)

Section ClientFacts.

Context (net : network) (self : VirtualNumberAPI.t).

Lemma perform_eq (op : api_operation) (w : world) :
  perform net self op w =
  (Done (result_of_answer (net (http_log w) (request_of self op))),
   set_http_log (fun l => l ++ [request_of self op]) w).
Proof.
  destruct op; cbn -[set_http_log];
    unfold VirtualNumberAPI.get_all_countries, VirtualNumberAPI.purchase_number,
      VirtualNumberAPI.get_sms, VirtualNumberAPI.get_active_numbers,
      VirtualNumberAPI.cancel_number, try_except_request, bind, requests_call;
    match goal with |- context [net ?l ?r] => destruct (net l r) as [e|resp] end;
    cbn -[set_http_log]; try reflexivity;
    unfold raise_for_status, response_json;
    destruct (http_error resp); cbn -[set_http_log]; try reflexivity;
    destruct (parsed resp); reflexivity.
Qed.

Lemma get_sms_eq (n : pyval) (w : world) :
  VirtualNumberAPI.get_sms net self n w =
  (Done (result_of_answer (net (http_log w) (VirtualNumberAPI.get_sms_request self n))),
   set_http_log (fun l => l ++ [VirtualNumberAPI.get_sms_request self n]) w).
Proof. exact (perform_eq (op_get_sms n) w). Qed.

Lemma cancel_number_eq (n : pyval) (w : world) :
  VirtualNumberAPI.cancel_number net self n w =
  (Done (result_of_answer (net (http_log w) (VirtualNumberAPI.cancel_number_request self n))),
   set_http_log (fun l => l ++ [VirtualNumberAPI.cancel_number_request self n]) w).
Proof. exact (perform_eq (op_cancel_number n) w). Qed.

Lemma purchase_number_eq (c s : string) (w : world) :
  VirtualNumberAPI.purchase_number net self c s w =
  (Done (result_of_answer (net (http_log w) (VirtualNumberAPI.purchase_number_request self c s))),
   set_http_log (fun l => l ++ [VirtualNumberAPI.purchase_number_request self c s]) w).
Proof. exact (perform_eq (op_purchase_number c s) w). Qed.

Lemma get_all_countries_eq (w : world) :
  VirtualNumberAPI.get_all_countries net self w =
  (Done (result_of_answer (net (http_log w) (VirtualNumberAPI.get_all_countries_request self))),
   set_http_log (fun l => l ++ [VirtualNumberAPI.get_all_countries_request self]) w).
Proof. exact (perform_eq op_get_all_countries w). Qed.

(** C6.  Each of the five client operations sends exactly one request and
    returns instead of raising: when the transport fails, or when
    [raise_for_status] rejects the status, the value returned is the tagged
    failure carrying the text of the error; when the response is accepted
    and parses, the parsed body is returned.  Nothing else in the world
    changes. *)
Theorem client_one_attempt_tagged_failure (op : api_operation) (w : world) :
  let r := request_of self op in
  let answer := net (http_log w) r in
  let res := (perform net self op w).1 in
  let w' := (perform net self op w).2 in
  http_log w' = http_log w ++ [r]
  ∧ user_data_store w' = user_data_store w
  ∧ purchased_numbers w' = purchased_numbers w
  ∧ user_data w' = user_data w
  ∧ outbox w' = outbox w
  ∧ (∃ body, res = Done body)
  ∧ match answer with
    | inl e =>
        res = Done {| success := false; data := None; error := Some (PyStr (exc_str e)) |}
    | inr resp =>
        match http_error resp, parsed resp with
        | Some msg, _ =>
            res = Done {| success := false; data := None; error := Some (PyStr msg) |}
        | None, inr body => res = Done body
        | None, inl msg =>
            res = Done {| success := false; data := None; error := Some (PyStr msg) |}
        end
    end.
Proof.
  cbv zeta. rewrite perform_eq. cbn.
  repeat split; eauto.
  destruct (net (http_log w) (request_of self op)) as [e|resp]; cbn; [done|].
  destruct (http_error resp); [done|]. by destruct (parsed resp).
Qed.

End ClientFacts.

(** ** The poll loop *)

Section PollFacts.

Context (net : network) (RAPIDAPI_KEY : string).







End PollFacts.

Section FiringScenario.

Import Scenario.

(** C10.  A firing of the scheduler's job runs nothing of the poll loop:
    the call of the [async] function makes a coroutine that nothing awaits,
    so in every world the firing returns at once and leaves the world, the
    request log included, as it was.  After Alice's purchase number 123 is
    registered and active; a firing sends no request for it, whereas the
    body of the loop, were the coroutine awaited, would send the request
    for its SMS. *)
Theorem firing_fetches_nothing :
  (∀ net RAPIDAPI_KEY w, handle net RAPIDAPI_KEY on_timer w = (Done tt, w))
  ∧ (status <$> purchased_numbers w_bought !! PyStr "123") = Some active
  ∧ http_log (step provider key w_bought on_timer) = http_log w_bought
  ∧ http_log (bind (check_sms_scheduler_call provider key) await w_bought).2
    = http_log w_bought
      ++ [VirtualNumberAPI.get_sms_request (api_client key) (PyStr "123")].
Proof. split; [done|]. repeat split; vm_compute; reflexivity. Qed.

End FiringScenario.

(** ** The read-only commands *)

Section ReadOnlyFacts.

Lemma active_numbers_reply_only (update : Update) :
  reply_only (active_numbers_command update).
Proof.
  intros [uds pn ud log ob].
  unfold reply_only, active_numbers_command, bind, get_world, owned_numbers, fresh,
    update_message_reply_text, send_message, modify, raise, set_outbox.
  cbn. repeat case_match; cbn; try done; by rewrite ?app_nil_r.
Qed.

Lemma my_sms_reply_only (update : Update) :
  reply_only (my_sms_command update).
Proof.
  intros [uds pn ud log ob].
  unfold reply_only, my_sms_command, bind, get_world, owned_numbers, fresh,
    update_message_reply_text, send_message, modify, raise, set_outbox.
  cbn. repeat case_match; cbn; try done; by rewrite ?app_nil_r.
Qed.

End ReadOnlyFacts.

(** ** The list of active numbers *)

Section ScenarioFacts.

Import Scenario.

(** The reply of [/active] when the user has an active number: one entry
    per owned number that is registered and active, in the order of the
    list, each printed with the id [n] that ends the list. *)
Lemma active_numbers_rendering (user : tg_user) (w : world) (l : list pyval) (n : pyval) :
  owned_numbers w (id user) = Some l →
  active_numbers_of w l ≠ [] →
  last l = Some n →
  active_numbers_command {| effective_user := user; kind := Command |} w =
  (Done tt,
   set_outbox
     (fun o => o ++ [reply_text
                       ("📱 *Your Active Numbers*

" +:+ concat_str (active_entry n <$> active_numbers_of w l)
                        +:+ "Use /cancel <number_id> to cancel a number.")
                       None MARKDOWN]) w).
Proof.
  intros Hl Hact Hlast.
  unfold active_numbers_command, bind, get_world. cbn [effective_user kind id].
  rewrite Hl. case_decide; [done|]. by rewrite Hlast.
Qed.

(** C9.  Alice owns the active numbers 123 and 456.  The list [/active]
    renders has one entry for each, with the number's own phone number and
    country, but both entries carry the id 456, the last id of her list:
    the entry of number 123 does not show 123. *)
Theorem active_entries_all_show_last_id :
  owned_numbers w_two (id alice) = Some [PyStr "123"; PyStr "456"]
  ∧ (phone_number <$> purchased_numbers w_two !! PyStr "123") = Some (PyStr "+15550100")
  ∧ (status <$> purchased_numbers w_two !! PyStr "123") = Some active
  ∧ (status <$> purchased_numbers w_two !! PyStr "456") = Some active
  ∧ handle provider key (on_command alice cmd_active t2) w_two =
    (Done tt,
     set_outbox (fun o => o ++ [reply_text
"📱 *Your Active Numbers*

• *Number:* +15550100
  *Country:* US
  *ID:* `456`
  *Since:* 2024-05-01

• *Number:* +447700900123
  *Country:* GB
  *ID:* `456`
  *Since:* 2024-05-01

Use /cancel <number_id> to cancel a number." None MARKDOWN]) w_two).
Proof. repeat split; vm_compute; reflexivity. Qed.

End ScenarioFacts.

(** ** Frame rules *)

Section FrameRules.

Context {S : Type} (proj : world → S).

Lemma preserves_ret {A} (a : A) : preserves proj (ret a).
Proof. by intros w. Qed.

Lemma preserves_raise {A} (e : exn) : preserves proj (@raise A e).
Proof. by intros w. Qed.

Lemma preserves_get_world : preserves proj get_world.
Proof. by intros w. Qed.

Lemma preserves_bind {A B} (c : M A) (k : A → M B) :
  preserves proj c → (∀ a, preserves proj (k a)) → preserves proj (bind c k).
Proof.
  intros Hc Hk w. unfold bind. specialize (Hc w).
  destruct (c w) as [[a|e] w']; cbn in *; [|done].
  by rewrite Hk.
Qed.

Lemma preserves_for_each {A} (l : list A) (body : A → M unit) :
  (∀ x, preserves proj (body x)) → preserves proj (for_each l body).
Proof.
  intros Hb. induction l as [|x l IH]; [apply preserves_ret|].
  cbn. apply preserves_bind; [apply Hb|by intros _].
Qed.

Lemma preserves_modify (f : world → world) :
  (∀ w, proj (f w) = proj w) → preserves proj (modify f).
Proof. intros Hf w. apply Hf. Qed.

Lemma preserves_perform (net : network) (self : VirtualNumberAPI.t) (op : api_operation) :
  (∀ f w, proj (set_http_log f w) = proj w) → preserves proj (perform net self op).
Proof. intros Hf w. rewrite perform_eq. apply Hf. Qed.

End FrameRules.

Create HintDb frame discriminated.

Ltac frame_step :=
  first
    [ solve [auto with frame nocore]
    | apply preserves_ret
    | apply preserves_raise
    | apply preserves_get_world
    | apply preserves_bind; [|intros ?]
    | apply preserves_for_each; intros ?
    | apply preserves_modify; intros ?; reflexivity
    | apply (preserves_perform _ _ _ op_get_all_countries); intros ? ?; reflexivity
    | apply (preserves_perform _ _ _ (op_get_sms _)); intros ? ?; reflexivity
    | apply (preserves_perform _ _ _ (op_cancel_number _)); intros ? ?; reflexivity
    | apply (preserves_perform _ _ _ (op_purchase_number _ _)); intros ? ?; reflexivity
    | match goal with
      | |- preserves _ (match ?x with _ => _ end) => destruct x
      | |- preserves _ (let '(_, _) := ?x in _) => destruct x
      end ].

Ltac frame :=
  unfold update_message_reply_text, callback_message_reply_text,
    query_edit_message_text, message_edit_text, send_message;
  repeat frame_step.

Section HandlerFrames.

Context (net : network) (RAPIDAPI_KEY : string).

Lemma show_countries_page_registry (update : Update) (page : Z) :
  preserves purchased_numbers (show_countries_page update page).
Proof. unfold show_countries_page. frame. Qed.

Lemma show_countries_page_users (update : Update) (page : Z) :
  preserves user_data_store (show_countries_page update page).
Proof. unfold show_countries_page. frame. Qed.

Hint Resolve show_countries_page_registry show_countries_page_users : frame.

Lemma list_countries_registry (update : Update) :
  preserves purchased_numbers (list_countries_command net RAPIDAPI_KEY update).
Proof. unfold list_countries_command. frame. Qed.

Lemma list_countries_users (update : Update) :
  preserves user_data_store (list_countries_command net RAPIDAPI_KEY update).
Proof. unfold list_countries_command. frame. Qed.

Lemma start_registry (update : Update) (now : string) :
  preserves purchased_numbers (start update now).
Proof. unfold start. frame. Qed.

Lemma help_registry (update : Update) : preserves purchased_numbers (help_command update).
Proof. unfold help_command. frame. Qed.

Lemma help_users (update : Update) : preserves user_data_store (help_command update).
Proof. unfold help_command. frame. Qed.

Lemma my_sms_registry (update : Update) : preserves purchased_numbers (my_sms_command update).
Proof. unfold my_sms_command. frame. Qed.

Lemma my_sms_users (update : Update) : preserves user_data_store (my_sms_command update).
Proof. unfold my_sms_command. frame. Qed.

Lemma active_numbers_registry (update : Update) :
  preserves purchased_numbers (active_numbers_command update).
Proof. unfold active_numbers_command. frame. Qed.

Lemma active_numbers_users (update : Update) :
  preserves user_data_store (active_numbers_command update).
Proof. unfold active_numbers_command. frame. Qed.

Lemma view_sms_registry (update : Update) (number_id : string) :
  preserves purchased_numbers (view_sms_messages net RAPIDAPI_KEY update number_id).
Proof. unfold view_sms_messages. frame. Qed.

Lemma view_sms_users (update : Update) (number_id : string) :
  preserves user_data_store (view_sms_messages net RAPIDAPI_KEY update number_id).
Proof. unfold view_sms_messages. frame. Qed.

Lemma cancel_users (update : Update) (args : list string) :
  preserves user_data_store (cancel_number_command net RAPIDAPI_KEY update args).
Proof. unfold cancel_number_command. frame. Qed.

End HandlerFrames.

#[local] Hint Resolve show_countries_page_registry show_countries_page_users : frame.

(** ** Purchase and cancel, step by step *)

Section RegistrySteps.

Context (net : network) (RAPIDAPI_KEY : string).

Lemma purchase_registry (update : Update) (c now : string) (w : world) :
  purchased_numbers (purchase_for_country net RAPIDAPI_KEY update c now w).2 =
  match kind update, purchased (purchase_answer net RAPIDAPI_KEY w c) with
  | CallbackQuery, Some (n, phone) =>
      <[n := {| user_id := id (effective_user update); country_code := c;
                phone_number := phone; purchase_date := now; status := active |}]>
        (purchased_numbers w)
  | _, _ => purchased_numbers w
  end.
Proof.
  unfold purchase_for_country, callback_message_reply_text, message_edit_text,
    send_message, bind, modify, raise, purchased, purchase_answer.
  destruct (kind update); [done|]. cbn -[set_outbox].
  rewrite purchase_number_eq. cbn.
  destruct (success _); [|done].
  by destruct (default (PDict ∅) _).
Qed.

Lemma purchase_users (update : Update) (c now : string) (w : world) :
  user_data_store (purchase_for_country net RAPIDAPI_KEY update c now w).2 =
  match kind update, purchased (purchase_answer net RAPIDAPI_KEY w c) with
  | CallbackQuery, Some (n, _) =>
      let uid := id (effective_user update) in
      append_number uid n (ensure_numbers uid (ensure_user uid (user_data_store w)))
  | _, _ => user_data_store w
  end.
Proof.
  unfold purchase_for_country, callback_message_reply_text, message_edit_text,
    send_message, bind, modify, raise, purchased, purchase_answer.
  destruct (kind update); [done|]. cbn -[set_outbox].
  rewrite purchase_number_eq. cbn.
  destruct (success _); [|done].
  by destruct (default (PDict ∅) _).
Qed.

Lemma cancel_guard_eq (w : world) (uid : Z) (n : pyval) :
  negb (bool_decide (is_Some (user_data_store w !! uid)))
  || negb (bool_decide (is_Some (owned_numbers w uid)))
  || negb (bool_decide (n ∈ default [] (owned_numbers w uid)))
  = negb (bool_decide (n ∈ default [] (owned_numbers w uid))).
Proof.
  unfold owned_numbers.
  destruct (user_data_store w !! uid) as [r|]; cbn.
  - destruct (numbers r) as [l|]; cbn; [done|].
    by rewrite (bool_decide_eq_false_2 (n ∈ [])) by apply not_elem_of_nil.
  - done.
Qed.

(** A cancel command, spelled out. *)
Lemma cancel_eq (user : tg_user) (arg : string) (rest : list string) (w : world) :
  let n := PyStr arg in
  let req := VirtualNumberAPI.cancel_number_request (api_client RAPIDAPI_KEY) n in
  cancel_number_command net RAPIDAPI_KEY
    {| effective_user := user; kind := Command |} (arg :: rest) w =
  (Done tt,
   if negb (bool_decide (n ∈ default [] (owned_numbers w (id user)))) then
     set_outbox (fun o => o ++ [not_found_or_not_yours]) w
   else if negb (bool_decide (is_Some (purchased_numbers w !! n))) then
     set_outbox (fun o => o ++ [not_found]) w
   else if success (cancel_answer net RAPIDAPI_KEY w n) then
     set_outbox (fun o => o ++ [cancel_ok_message arg])
       (set_purchased_numbers (alter (set_status cancelled) n)
          (set_http_log (fun l => l ++ [req]) w))
   else
     set_outbox
       (fun o => o ++ [reply_text
                         ("❌ Cancellation failed: "
                          +:+ py_str (default (PyStr "Cancellation failed")
                                        (error (cancel_answer net RAPIDAPI_KEY w n))))
                         None PlainText])
       (set_http_log (fun l => l ++ [req]) w)).
Proof.
  cbv zeta. unfold cancel_number_command. cbn [effective_user kind id].
  unfold bind at 1. unfold get_world at 1. cbn iota.
  rewrite cancel_guard_eq.
  destruct (negb (bool_decide (PyStr arg ∈ _))); [done|].
  destruct (negb (bool_decide (is_Some _))); [done|].
  unfold bind. rewrite cancel_number_eq. fold (cancel_answer net RAPIDAPI_KEY w (PyStr arg)).
  by destruct (success _).
Qed.

End RegistrySteps.

(** ** The cancel command *)

Section CancelFacts.

Context (net : network) (RAPIDAPI_KEY : string).

Lemma cancel_failed_is_not_ok (arg : string) (v : pyval) :
  reply_text ("❌ Cancellation failed: " +:+ py_str v) None PlainText ≠ cancel_ok_message arg.
Proof. unfold cancel_ok_message. intros H. cbn in H. discriminate. Qed.

(** C1, as amended.  A cancel command succeeds exactly when the id is in
    the caller's owned list, is in the registry, and the provider's cancel
    call reports success; the status of the number is not consulted.  On
    success the registry changes only in that the number's status becomes
    cancelled; otherwise the registry is unchanged.  The user store and the
    sessions are never changed, and exactly one message is sent. *)
Theorem cancel_succeeds_iff_listed_registered_accepted
    (user : tg_user) (arg : string) (rest : list string) (now : string) (w : world) :
  let n := PyStr arg in
  let w' := step net RAPIDAPI_KEY w (on_command user (cmd_cancel (arg :: rest)) now) in
  let ok := bool_decide (n ∈ default [] (owned_numbers w (id user)))
            && bool_decide (is_Some (purchased_numbers w !! n))
            && success (cancel_answer net RAPIDAPI_KEY w n) in
  (∃ reply, outbox w' = outbox w ++ [reply] ∧ (reply = cancel_ok_message arg ↔ ok = true))
  ∧ purchased_numbers w' =
      (if ok then alter (set_status cancelled) n (purchased_numbers w)
       else purchased_numbers w)
  ∧ user_data_store w' = user_data_store w
  ∧ user_data w' = user_data w.
Proof.
  cbv zeta. unfold step, handle. rewrite cancel_eq. cbn [snd].
  destruct (bool_decide (PyStr arg ∈ _)); cbn [negb andb].
  2:{ split; [|done]. eexists; split; [done|]. split; [discriminate|done]. }
  destruct (bool_decide (is_Some _)); cbn [negb andb].
  2:{ split; [|done]. eexists; split; [done|]. split; [discriminate|done]. }
  destruct (success _).
  - split; [|done]. eexists; split; [done|]. done.
  - split; [|done]. eexists; split; [done|].
    split; [|done]. intros H. by apply cancel_failed_is_not_ok in H.
Qed.

(** C4, as amended.  A cancel command for an id that is not in the caller's
    owned list is answered by the one combined error, whether or not the
    registry knows the id, and changes nothing else.  The separate
    not-found error answers an id that is in the caller's list but not in
    the registry.  An id that passes both checks gets neither error. *)
Theorem cancel_unlisted_gets_combined_error
    (user : tg_user) (arg : string) (rest : list string) (now : string) (w : world) :
  let n := PyStr arg in
  let w' := step net RAPIDAPI_KEY w (on_command user (cmd_cancel (arg :: rest)) now) in
  match bool_decide (n ∈ default [] (owned_numbers w (id user))), purchased_numbers w !! n with
  | false, _ => w' = set_outbox (fun o => o ++ [not_found_or_not_yours]) w
  | true, None => w' = set_outbox (fun o => o ++ [not_found]) w
  | true, Some _ =>
      ∃ reply, outbox w' = outbox w ++ [reply]
               ∧ reply ≠ not_found_or_not_yours ∧ reply ≠ not_found
  end.
Proof.
  cbv zeta. unfold step, handle. rewrite cancel_eq. cbn [snd].
  destruct (bool_decide (PyStr arg ∈ _)); cbn [negb];
    [|by destruct (purchased_numbers w !! PyStr arg)].
  destruct (purchased_numbers w !! PyStr arg) as [info|] eqn:Hl.
  - rewrite bool_decide_eq_true_2 by eauto. cbn [negb].
    destruct (success _); eexists; (split; [done|]); split; intros H; cbn in H; discriminate.
  - rewrite bool_decide_eq_false_2 by (intros [? ?]; discriminate). done.
Qed.

End CancelFacts.

Section CancelScenario.

Import Scenario.

(** The cancel rule as specified does not hold.  Alice has bought number
    123 and cancelled it.  Its status is cancelled, yet her second cancel
    succeeds, as the provider accepts it again. *)
Lemma second_cancel_succeeds :
  ¬ cancel_rule_as_specified provider key w_cancelled alice "123" t2.
Proof.
  intros [[Hsucc _] _].
  destruct Hsucc as (info & Hl & _ & Hst); [vm_compute; reflexivity|].
  assert (Hc : (status <$> purchased_numbers w_cancelled !! PyStr "123") = Some cancelled)
    by (vm_compute; reflexivity).
  rewrite Hl in Hc. cbn in Hc. congruence.
Qed.

(** The two errors as specified are not distinct.  Number 123 is Alice's
    and 999 is unknown; Bob's cancel of either gets the same reply. *)
Lemma unknown_and_foreign_same_error :
  ¬ cancel_errors_as_specified provider key w_bought bob "999" "123" t2.
Proof.
  intros H. apply H.
  - vm_compute; reflexivity.
  - exists {| user_id := 1; country_code := "US"; phone_number := PyStr "+15550100";
              purchase_date := t0; status := active |}.
    split; [vm_compute; reflexivity|]. cbn. lia.
  - vm_compute; reflexivity.
Qed.

End CancelScenario.

(** ** The owner of a number *)

Section OwnerFacts.

Context (net : network) (RAPIDAPI_KEY : string).

Lemma purchase_menu_registry (update : Update) (now : string) :
  preserves purchased_numbers (purchase_number_command net RAPIDAPI_KEY update [] now).
Proof. unfold purchase_number_command. frame. Qed.

Lemma purchase_menu_users (update : Update) (now : string) :
  preserves user_data_store (purchase_number_command net RAPIDAPI_KEY update [] now).
Proof. unfold purchase_number_command. frame. Qed.

Lemma country_page_registry (update : Update) (page : Z) (now : string) :
  preserves purchased_numbers
    (button_handler net RAPIDAPI_KEY update (country_page_ page) now).
Proof. unfold button_handler. frame. Qed.

Lemma country_page_users (update : Update) (page : Z) (now : string) :
  preserves user_data_store
    (button_handler net RAPIDAPI_KEY update (country_page_ page) now).
Proof. unfold button_handler. frame. Qed.

Lemma start_users (update : Update) (now : string) (w : world) :
  user_data_store (start update now w).2
  = <[id (effective_user update) := started_record (effective_user update) now]>
      (user_data_store w).
Proof.
  unfold start, bind, modify, update_message_reply_text, send_message, raise.
  by destruct (kind update).
Qed.

(** What one event does to the two stores: nothing; or the status of one
    number becomes cancelled; or [start] writes the record of its user
    anew; or a press of a country button stores the number the provider
    sold, under the presser's id and at the end of the presser's list. *)
Lemma step_stores (w : world) (e : event) :
  let w' := step net RAPIDAPI_KEY w e in
  (purchased_numbers w' = purchased_numbers w ∧ user_data_store w' = user_data_store w)
  ∨ (∃ n, purchased_numbers w' = alter (set_status cancelled) n (purchased_numbers w)
          ∧ user_data_store w' = user_data_store w)
  ∨ (∃ user now,
        is_start e = true
        ∧ purchased_numbers w' = purchased_numbers w
        ∧ user_data_store w' = <[id user := started_record user now]> (user_data_store w))
  ∨ (∃ user c now n phone,
        e = on_button user (select_country_ c) now
        ∧ purchased (purchase_answer net RAPIDAPI_KEY w c) = Some (n, phone)
        ∧ purchased_numbers w'
          = <[n := {| user_id := id user; country_code := c; phone_number := phone;
                      purchase_date := now; status := active |}]> (purchased_numbers w)
        ∧ user_data_store w'
          = append_number (id user) n
              (ensure_numbers (id user) (ensure_user (id user) (user_data_store w)))).
Proof.
  cbv zeta. unfold step. destruct e as [user c now|user data now|]; cbn [handle].
  - destruct c as [| | |args| | |args].
    + right; right; left. exists user, now.
      split; [done|]. split; [apply start_registry|apply start_users].
    + left. split; [apply help_registry|apply help_users].
    + left. split; [apply list_countries_registry|apply list_countries_users].
    + left. destruct args as [|c args].
      * split; [apply purchase_menu_registry|apply purchase_menu_users].
      * cbn [purchase_number_command]. by rewrite purchase_registry, purchase_users.
    + left. split; [apply my_sms_registry|apply my_sms_users].
    + left. split; [apply active_numbers_registry|apply active_numbers_users].
    + destruct args as [|arg rest].
      * left. unfold cancel_number_command. split; by frame.
      * rewrite cancel_eq. cbn [snd].
        destruct (negb (bool_decide (PyStr arg ∈ _))); [by left|].
        destruct (negb (bool_decide (is_Some _))); [by left|].
        destruct (success _); [|by left].
        right; left. by exists (PyStr arg).
  - destruct data as [| | | | |page|c|number_id|]; cbn [button_handler].
    + right; right; left. exists user, now.
      split; [done|]. split; [apply start_registry|apply start_users].
    + left. split; [apply list_countries_registry|apply list_countries_users].
    + left. split; [apply purchase_menu_registry|apply purchase_menu_users].
    + left. split; [apply my_sms_registry|apply my_sms_users].
    + left. split; [apply help_registry|apply help_users].
    + left. split; [apply (country_page_registry _ page now)
                   |apply (country_page_users _ page now)].
    + rewrite purchase_registry, purchase_users. cbn [kind effective_user].
      destruct (purchased _) as [[n phone]|] eqn:Hp; [|by left].
      right; right; right. by exists user, c, now, n, phone.
    + left. split; [apply view_sms_registry|apply view_sms_users].
    + by left.
  - by left.
Qed.

Lemma set_status_same (info : number_info) : set_status (status info) info = info.
Proof. by destruct info. Qed.

Lemma set_status_twice (s1 s2 : number_status) (info : number_info) :
  set_status s2 (set_status s1 info) = set_status s2 info.
Proof. done. Qed.

(** An event that does not create a number under the id [n] leaves the
    record of [n] in the registry, up to its status. *)
Lemma step_keeps_record (w : world) (e : event) (n : pyval) (info : number_info) :
  purchased_numbers w !! n = Some info →
  created_id net RAPIDAPI_KEY w e ≠ Some n →
  ∃ st, purchased_numbers (step net RAPIDAPI_KEY w e) !! n = Some (set_status st info).
Proof.
  intros Hl Hnew.
  destruct (step_stores w e)
    as [[-> _]|[[m [-> _]]|[(? & ? & _ & -> & _)|(user & c & now & m & phone & -> & Hp & -> & _)]]].
  - exists (status info). by rewrite set_status_same.
  - destruct (decide (m = n)) as [->|Hne].
    + exists cancelled. by rewrite lookup_alter_eq, Hl.
    + exists (status info). by rewrite lookup_alter_ne, set_status_same.
  - exists (status info). by rewrite set_status_same.
  - exists (status info). rewrite set_status_same, lookup_insert_ne; [done|].
    intros ->. apply Hnew. cbn. by rewrite Hp.
Qed.

Lemma run_keeps_record (es : list event) (w : world) (n : pyval) (info : number_info) :
  purchased_numbers w !! n = Some info →
  recreated net RAPIDAPI_KEY n w es = false →
  ∃ st, purchased_numbers (run net RAPIDAPI_KEY es w) !! n = Some (set_status st info).
Proof.
  revert w info. induction es as [|e es IH]; intros w info Hl Hre.
  - exists (status info). by rewrite set_status_same.
  - cbn in Hre. apply orb_false_iff in Hre as [Hnew Hre].
    apply bool_decide_eq_false in Hnew.
    destruct (step_keeps_record w e n info Hl Hnew) as [st Hst].
    destruct (IH _ _ Hst Hre) as [st' Hst'].
    exists st'. exact Hst'.
Qed.

(** C7, as amended.  A press of a country button by [user] that creates
    number [n] records [user] as its owner, whatever the registry held
    under [n] before; and after any further events, none of which creates a
    number under the id [n] again, the registry still holds [n] with that
    owner, and with the country, phone number and purchase date of the
    purchase. *)
Theorem owner_is_purchaser_for_lifetime
    (user : tg_user) (c now : string) (w : world) (n : pyval) (es : list event) :
  let purchase := on_button user (select_country_ c) now in
  let w1 := step net RAPIDAPI_KEY w purchase in
  created_id net RAPIDAPI_KEY w purchase = Some n →
  recreated net RAPIDAPI_KEY n w1 es = false →
  (user_id <$> purchased_numbers w1 !! n) = Some (id user)
  ∧ (user_id <$> purchased_numbers (run net RAPIDAPI_KEY es w1) !! n) = Some (id user)
  ∧ ∃ info st,
      purchased_numbers w1 !! n = Some info
      ∧ country_code info = c ∧ purchase_date info = now ∧ status info = active
      ∧ purchased_numbers (run net RAPIDAPI_KEY es w1) !! n = Some (set_status st info).
Proof.
  cbv zeta. intros Hnew Hre.
  cbn in Hnew. destruct (purchased _) as [[n' phone]|] eqn:Hp; [|done].
  cbn in Hnew. injection Hnew as ->.
  set (info := {| user_id := id user; country_code := c; phone_number := phone;
                  purchase_date := now; status := active |}).
  assert (Hl : purchased_numbers
                 (step net RAPIDAPI_KEY w (on_button user (select_country_ c) now)) !! n
               = Some info).
  { unfold step. cbn [handle button_handler]. rewrite purchase_registry, Hp.
    cbn [kind effective_user]. by rewrite lookup_insert_eq. }
  destruct (run_keeps_record es _ n info Hl Hre) as [st Hst].
  rewrite Hl, Hst. repeat split; try done.
  by exists info, st.
Qed.

End OwnerFacts.

Section OwnerScenario.

Import Scenario.

(** After Alice's purchase of 123: her cancel, Bob's purchase of 456, her
    [/start], Bob's attempt to cancel 123, and a firing of the poll loop. *)
Lemma owner_is_purchaser_for_lifetime_witness :
  let es := [ on_command alice (cmd_cancel ["123"]) t1;
              buy bob "GB" t1;
              on_command alice cmd_start t2;
              on_command bob (cmd_cancel ["123"]) t2;
              on_timer ] in
  created_id provider key empty_world (buy alice "US" t0) = Some (PyStr "123")
  ∧ recreated provider key (PyStr "123") (step provider key empty_world (buy alice "US" t0)) es
    = false
  ∧ (user_id <$> purchased_numbers (run provider key es (step provider key empty_world (buy alice "US" t0)))
                 !! PyStr "123") = Some (id alice).
Proof.
  cbv zeta. split; [vm_compute; reflexivity|]. split; [vm_compute; reflexivity|].
  eapply (owner_is_purchaser_for_lifetime provider key alice "US" t0 empty_world (PyStr "123"));
    vm_compute; reflexivity.
Defined.

(** The owner rule as specified does not hold.  Alice buys a number for
    the US and gets 123; Bob then buys one for the US and the provider
    answers 123 again: the registry now records Bob as the owner of 123. *)
Lemma resold_id_changes_owner :
  ¬ owner_kept_as_specified provider key empty_world alice "US" t0 (PyStr "123")
      [buy bob "US" t1].
Proof.
  intros H.
  assert (Hbob : (user_id <$> purchased_numbers
                    (run provider key [buy bob "US" t1]
                       (step provider key empty_world (buy alice "US" t0))) !! PyStr "123")
                 = Some (id bob)) by (vm_compute; reflexivity).
  assert (Halice : created_id provider key empty_world (buy alice "US" t0)
                   = Some (PyStr "123")) by (vm_compute; reflexivity).
  pose proof (eq_trans (eq_sym (H Halice)) Hbob) as Hsame.
  discriminate Hsame.
Qed.

End OwnerScenario.

(** ** Pagination *)

Section PageFacts.

Lemma slice_bound_nat {A} (l : list A) (i : nat) :
  slice_bound l (Z.of_nat i) = Nat.min i (length l).
Proof. unfold slice_bound. case_decide; lia. Qed.

(** A slice with bounds that are not negative, by [take] and [drop]. *)
Lemma py_slice_nat {A} (l : list A) (a b : nat) :
  (a ≤ b)%nat →
  py_slice l (Z.of_nat a) (Z.of_nat b) = take (b - a) (drop a l).
Proof.
  intros Hab. unfold py_slice. rewrite !slice_bound_nat.
  destruct (decide (length l ≤ a)%nat) as [Hge|Hlt].
  - rewrite (drop_ge l a) by done.
    rewrite drop_ge by lia. by rewrite !take_nil.
  - replace (a `min` length l)%nat with a by lia.
    destruct (decide (b ≤ length l)%nat).
    + by replace (b `min` length l)%nat with b by lia.
    + rewrite !take_ge; [done| |]; rewrite length_drop; lia.
Qed.

Lemma page_slice (l : list pydict) (k : nat) :
  py_slice l (Z.of_nat k * items_per_page) (Z.of_nat k * items_per_page + items_per_page)
  = take 10 (drop (10 * k) l).
Proof.
  unfold items_per_page.
  replace (Z.of_nat k * 10) with (Z.of_nat (10 * k)) by lia.
  replace (Z.of_nat (10 * k) + 10) with (Z.of_nat (10 * k + 10)) by lia.
  rewrite py_slice_nat by lia. f_equal. lia.
Qed.

Lemma page_lookup (l : list pydict) (k j : nat) (c : pydict) :
  take 10 (drop (10 * k) l) !! j = Some c
  ↔ l !! (10 * k + j)%nat = Some c
    ∧ (10 * k + j < Nat.min (10 * (k + 1)) (length l))%nat.
Proof.
  rewrite lookup_take, lookup_drop. case_decide as Hj.
  - split; [|by intros [? _]].
    intros Hc. split; [done|]. apply lookup_lt_Some in Hc. lia.
  - split; [done|]. intros [_ ?]. lia.
Qed.

Lemma previous_is_not_next (k : Z) : previous_button k ≠ next_button k.
Proof. intros H. apply (f_equal label) in H. cbn in H. discriminate. Qed.

(** C5.  For a cached listing [l] of [N] countries and a page index [k],
    the page shown has one row per country of [take 10 (drop (10 k) l)],
    that is, exactly the countries at the indices from [10 k] up to but not
    including [min (10 (k + 1)) N], in order; then a row of navigation
    buttons if there is any; then the main-menu row.  The Previous button
    is there exactly when [k > 0], the Next button exactly when
    [10 (k + 1) < N]. *)
Theorem countries_page_contents
    (update : Update) (l : list pydict) (k : nat) (p : option Z) (w : world) :
  user_data w !! id (effective_user update)
  = Some {| countries := Some (PList l); country_page := p |} →
  let N := length l in
  let items := take 10 (drop (10 * k) l) in
  ∃ nav : list InlineKeyboardButton,
    show_countries_page update (Z.of_nat k) w =
    (Done tt,
     set_outbox
       (fun o => o ++ [edit_text (countries_text (Z.of_nat N) (Z.of_nat k))
                         (Some ((country_button <$> items)
                                ++ (if decide (nav = []) then [] else [nav])
                                ++ [[main_menu_button]]))
                         MARKDOWN]) w)
    ∧ (∀ j c, items !! j = Some c
              ↔ l !! (10 * k + j)%nat = Some c
                ∧ (10 * k + j < Nat.min (10 * (k + 1)) N)%nat)
    ∧ nav = (if decide (0 < k)%nat then [previous_button (Z.of_nat k)] else [])
            ++ (if decide (10 * (k + 1) < N)%nat then [next_button (Z.of_nat k)] else [])
    ∧ (previous_button (Z.of_nat k) ∈ nav ↔ (0 < k)%nat)
    ∧ (next_button (Z.of_nat k) ∈ nav ↔ (10 * (k + 1) < N)%nat).
Proof.
  intros Hs N items.
  exists (nav_buttons (Z.of_nat k) (Z.of_nat k * items_per_page + items_per_page) (Z.of_nat N)).
  split; [|split; [|split; [|split]]].
  - unfold show_countries_page, bind, get_world. rewrite Hs.
    unfold message_edit_text, send_message, modify, countries_keyboard.
    cbn -[set_outbox nav_buttons py_slice countries_text Z.mul Z.add].
    by rewrite page_slice.
  - intros j c. apply page_lookup.
  - unfold nav_buttons, items_per_page. repeat case_decide; try lia; done.
  - unfold nav_buttons, items_per_page.
    pose proof (previous_is_not_next (Z.of_nat k)) as Hne.
    rewrite elem_of_app. repeat case_decide; try lia;
      rewrite ?list_elem_of_singleton, ?elem_of_nil; intuition (lia || congruence).
  - unfold nav_buttons, items_per_page.
    pose proof (previous_is_not_next (Z.of_nat k)) as Hne.
    rewrite elem_of_app. repeat case_decide; try lia;
      rewrite ?list_elem_of_singleton, ?elem_of_nil; intuition (lia || congruence).
Qed.

End PageFacts.

Section PageScenario.

Import Scenario.

(** The second page of the twelve countries: the last two, with a Previous
    button and no Next button. *)
Lemma countries_page_contents_witness :
  user_data w_browsing !! id alice
  = Some {| countries := Some (PList listing); country_page := Some 0 |}
  ∧ ∃ nav : list InlineKeyboardButton,
      show_countries_page {| effective_user := alice; kind := CallbackQuery |} 1 w_browsing =
      (Done tt,
       set_outbox
         (fun o => o ++ [edit_text (countries_text 12 1)
                           (Some ((country_button <$> take 10 (drop 10 listing))
                                  ++ (if decide (nav = []) then [] else [nav])
                                  ++ [[main_menu_button]]))
                           MARKDOWN]) w_browsing)
      ∧ nav = [previous_button 1].
Proof.
  assert (Hs : user_data w_browsing !! id alice
               = Some {| countries := Some (PList listing); country_page := Some 0 |})
    by (vm_compute; reflexivity).
  split; [exact Hs|].
  destruct (countries_page_contents {| effective_user := alice; kind := CallbackQuery |}
              listing 1 (Some 0) w_browsing Hs) as (nav & Hshow & _ & Hnav & _).
  exists nav. split; [exact Hshow|]. exact Hnav.
Defined.

End PageScenario.

(** ** Ownership along traces without [start] *)

Section OwnershipFacts.

Context (net : network) (RAPIDAPI_KEY : string).

Lemma owned_after_purchase (s : gmap Z user_record) (uid u : Z) (n : pyval) :
  append_number uid n (ensure_numbers uid (ensure_user uid s)) !! u ≫= numbers
  = if decide (u = uid) then Some (default [] (s !! uid ≫= numbers) ++ [n])
    else s !! u ≫= numbers.
Proof.
  unfold append_number, ensure_numbers, ensure_user. case_decide as Hu.
  - subst u. rewrite !lookup_alter_eq.
    destruct (s !! uid) as [r|] eqn:Hr.
    + rewrite Hr. cbn. by destruct (numbers r) eqn:Hn; cbn; rewrite ?Hn.
    + rewrite lookup_insert_eq. done.
  - rewrite !lookup_alter_ne by done.
    destruct (s !! uid); [done|]. by rewrite lookup_insert_ne.
Qed.

Lemma owned_by_after_purchase (w w' : world) (uid : Z) (n : pyval) :
  user_data_store w'
  = append_number uid n (ensure_numbers uid (ensure_user uid (user_data_store w))) →
  ∀ u m, owned_by w' u m ↔ owned_by w u m ∨ (u = uid ∧ m = n).
Proof.
  intros Hs u m. unfold owned_by, owned_numbers. rewrite Hs, owned_after_purchase.
  case_decide as Hu.
  - subst u. split.
    + intros (l & [= <-] & [Hin|Hin%list_elem_of_singleton]%elem_of_app); [|by right].
      left. destruct (user_data_store w !! uid ≫= numbers) as [l0|]; [by exists l0|].
      by apply elem_of_nil in Hin.
    + intros [(l & Hl & Hin)|[_ ->]]; eexists; (split; [done|]); apply elem_of_app.
      * left. by rewrite Hl.
      * right. by apply list_elem_of_singleton.
  - split; [by left|]. by intros [?|[? _]].
Qed.

Lemma owned_by_same_store (w w' : world) :
  user_data_store w' = user_data_store w →
  ∀ u m, owned_by w' u m ↔ owned_by w u m.
Proof. intros Hs u m. unfold owned_by, owned_numbers. by rewrite Hs. Qed.

(** One event that is not a [start] and creates no number under an id
    already registered keeps the two ownership invariants. *)
Lemma step_keeps_ownership (w : world) (e : event) :
  exactly_one_owner w → listed_are_registered w →
  disciplined net RAPIDAPI_KEY w [e] = true →
  exactly_one_owner (step net RAPIDAPI_KEY w e)
  ∧ listed_are_registered (step net RAPIDAPI_KEY w e).
Proof.
  intros Hone Hreg Hd. cbn in Hd.
  rewrite andb_true_r in Hd. apply andb_true_iff in Hd as [Hns Hfresh].
  apply negb_true_iff in Hns.
  destruct (step_stores net RAPIDAPI_KEY w e)
    as [[Hp Hu]|[(m & Hp & Hu)|[(? & ? & Hs & _)|(user & c & now & m & phone & -> & Hb & Hp & Hu)]]];
    cbv zeta in *.
  - split.
    + intros n info Hl u. rewrite Hp in Hl. rewrite (owned_by_same_store _ _ Hu). eauto.
    + intros u n Ho. rewrite Hp. apply (owned_by_same_store _ _ Hu) in Ho. eauto.
  - split.
    + intros n info Hl u. rewrite Hp, lookup_alter in Hl.
      rewrite (owned_by_same_store _ _ Hu).
      case_decide; [subst m|by eauto].
      destruct (purchased_numbers w !! n) as [info0|] eqn:Hl0; [|done].
      injection Hl as <-. by apply (Hone n info0).
    + intros u n Ho. apply (owned_by_same_store _ _ Hu) in Ho.
      rewrite Hp, lookup_alter. destruct (Hreg u n Ho) as [info Hl].
      case_decide; simplify_eq; rewrite Hl; eauto.
  - congruence.
  - cbn in Hfresh. rewrite Hb in Hfresh. cbn in Hfresh.
    apply bool_decide_eq_true in Hfresh.
    pose proof (owned_by_after_purchase _ _ _ _ Hu) as Ho.
    split.
    + intros n info Hl u. rewrite Hp in Hl. rewrite Ho.
      destruct (decide (n = m)) as [->|Hne].
      * rewrite lookup_insert_eq in Hl. injection Hl as <-. cbn. split.
        -- intros [Hold|[-> _]]; [|done].
           apply Hreg in Hold as [? Hold]. congruence.
        -- intros ->. by right.
      * rewrite lookup_insert_ne in Hl by done. rewrite <- (Hone n info Hl u).
        split; [|by left]. by intros [?|[_ ?]].
    + intros u n [Hold|[_ ->]]%Ho; rewrite Hp.
      * destruct (decide (m = n)) as [->|Hne]; [by rewrite lookup_insert_eq|].
        rewrite lookup_insert_ne by done. eauto.
      * by rewrite lookup_insert_eq.
Qed.

(** From a world in which every registered number has exactly one owner,
    the same holds after any events among which there is no [start] and no
    creation under an id already registered. *)
Lemma ownership_kept_without_restart (es : list event) (w : world) :
  exactly_one_owner w → listed_are_registered w →
  disciplined net RAPIDAPI_KEY w es = true →
  exactly_one_owner (run net RAPIDAPI_KEY es w)
  ∧ listed_are_registered (run net RAPIDAPI_KEY es w).
Proof.
  revert w. induction es as [|e es IH]; intros w Hone Hreg Hd; [done|].
  cbn in Hd. apply andb_true_iff in Hd as [Hd Hrest].
  destruct (step_keeps_ownership w e Hone Hreg) as [Hone' Hreg'].
  { cbn. by rewrite Hd. }
  exact (IH _ Hone' Hreg' Hrest).
Qed.

(** Where every number has exactly one owner, the check that [cancel]
    makes on the caller's list is a check of the recorded owner. *)
Lemma listed_iff_recorded_owner (w : world) (u : Z) (n : pyval) (info : number_info) :
  exactly_one_owner w →
  purchased_numbers w !! n = Some info →
  n ∈ default [] (owned_numbers w u) ↔ u = user_id info.
Proof.
  intros Hone Hl. rewrite <- (Hone n info Hl u). unfold owned_by.
  destruct (owned_numbers w u) as [l|]; cbn.
  - split; [by exists l|]. by intros (? & [= <-] & ?).
  - split; [by intros ?%elem_of_nil|]. by intros (? & ? & _).
Qed.

Lemma empty_world_ownership :
  exactly_one_owner empty_world ∧ listed_are_registered empty_world.
Proof.
  split.
  - intros n info Hl. cbn in Hl. by rewrite lookup_empty in Hl.
  - intros u n (l & Hl & _). unfold owned_numbers in Hl. cbn in Hl.
    by rewrite lookup_empty in Hl.
Qed.

(** No event removes the record of a user. *)
Lemma user_record_never_deleted (w : world) (e : event) (u : Z) :
  is_Some (user_data_store w !! u) →
  is_Some (user_data_store (step net RAPIDAPI_KEY w e) !! u).
Proof.
  intros Hu.
  destruct (step_stores net RAPIDAPI_KEY w e)
    as [[_ ->]|[(m & _ & ->)|[(user & now & _ & _ & ->)|(user & c & now & m & phone & _ & _ & _ & ->)]]].
  - done.
  - done.
  - rewrite lookup_insert. case_decide; eauto.
  - unfold append_number, ensure_numbers, ensure_user.
    destruct (decide (id user = u)) as [<-|Hne].
    + rewrite !lookup_alter_eq.
      destruct (user_data_store w !! id user) as [r|] eqn:Hr.
      * rewrite Hr. cbn. eauto.
      * rewrite lookup_insert_eq. cbn. eauto.
    + rewrite !lookup_alter_ne by done.
      destruct (user_data_store w !! id user); [done|]. by rewrite lookup_insert_ne.
Qed.

End OwnershipFacts.

(** ** What [start] does to a user who owns numbers *)

Section RestartScenario.

Import Scenario.

(** C3.  Alice buys number 123 and then sends [/start].  The purchase
    appended 123 to her list; [start] then replaced her whole record by a
    fresh profile without a list, so an operation other than a purchase
    removed an element of her owned numbers. *)
Theorem start_discards_owned_numbers :
  owned_numbers w_bought (id alice) = Some [PyStr "123"]
  ∧ w_restarted = step provider key w_bought (on_command alice cmd_start t1)
  ∧ owned_numbers w_restarted (id alice) = None
  ∧ user_data_store w_restarted !! id alice =
      Some {| user_profile := Some {| username := Some "alice"; first_name := "Alice";
                                      join_date := t1 |};
              numbers := None |}.
Proof. repeat split; vm_compute; reflexivity. Qed.

(** C2.  After the same two steps number 123 is still in the registry,
    recorded as Alice's, and no user has an owned list at all, so 123 is in
    the owned list of nobody: the registry no longer has exactly one owner
    for each number. *)
Theorem registered_number_owned_by_nobody :
  (user_id <$> purchased_numbers w_restarted !! PyStr "123") = Some (id alice)
  ∧ (∀ u, owned_numbers w_restarted u = None)
  ∧ ¬ exactly_one_owner w_restarted.
Proof.
  assert (Hnone : ∀ u, owned_numbers w_restarted u = None); last first.
  { split; [vm_compute; reflexivity|]. split; [done|].
    intros Hone.
    assert (Hl : purchased_numbers w_restarted !! PyStr "123"
                 = Some {| user_id := 1; country_code := "US";
                           phone_number := PyStr "+15550100";
                           purchase_date := t0; status := active |})
      by (vm_compute; reflexivity).
    destruct (proj2 (Hone _ _ Hl 1) eq_refl) as (l & Hown & _).
    by rewrite Hnone in Hown. }
  intros u. unfold owned_numbers.
  replace (user_data_store w_restarted)
    with (<[1 := {| user_profile := Some {| username := Some "alice"; first_name := "Alice";
                                            join_date := t1 |};
                    numbers := None |}]> (∅ : gmap Z user_record))
    by (vm_compute; reflexivity).
  destruct (decide (u = 1)) as [->|Hu].
  - by rewrite lookup_insert_eq.
  - rewrite lookup_insert_ne by done. by rewrite lookup_empty.
Qed.

(** C8.  Alice owns number 123 and asks for [/active], sends [/start],
    and asks for [/active] again, with no purchase and no cancel in
    between: the registry is as it was, yet the first answer lists her
    number and the second says that she has none.  Likewise for
    [/mysms]. *)
Theorem start_between_changes_the_answers :
  let asked_once (c : command) := step provider key w_bought (on_command alice c t1) in
  let restarted (c : command) := step provider key (asked_once c) (on_command alice cmd_start t1) in
  let asked_twice (c : command) := step provider key (restarted c) (on_command alice c t2) in
  outbox (asked_once cmd_active)
  = outbox w_bought ++ [reply_text
"📱 *Your Active Numbers*

• *Number:* +15550100
  *Country:* US
  *ID:* `123`
  *Since:* 2024-05-01

Use /cancel <number_id> to cancel a number." None MARKDOWN]
  ∧ purchased_numbers (restarted cmd_active) = purchased_numbers w_bought
  ∧ outbox (asked_twice cmd_active)
    = outbox (restarted cmd_active)
      ++ [reply_text "📱 You don't have any active numbers." None PlainText]
  ∧ outbox (asked_once cmd_mysms)
    = outbox w_bought ++ [reply_text
"📨 *My SMS Messages*

Select a number to view received SMS:"
        (Some [ [ {| label := "📱 +15550100"; callback_data := "view_sms_123" |} ];
                [ {| label := "🔄 Refresh"; callback_data := "refresh_sms" |} ];
                [ {| label := "🏠 Main Menu"; callback_data := "main_menu" |} ] ])
        MARKDOWN]
  ∧ purchased_numbers (restarted cmd_mysms) = purchased_numbers w_bought
  ∧ outbox (asked_twice cmd_mysms)
    = outbox (restarted cmd_mysms)
      ++ [reply_text "📭 You don't have any active numbers." None PlainText].
Proof. cbv zeta. repeat split; vm_compute; reflexivity. Qed.

End RestartScenario.

(** ** Callback data, written and read back *)

Section DecodeFacts.

Lemma py_split_nonempty (sep : Ascii.ascii) (s : string) : py_split sep s ≠ [].
Proof.
  destruct s as [|c s]; [done|]. cbn. case_decide; [done|].
  by destruct (py_split sep s).
Qed.

Lemma py_split_plain (s : string) :
  has_underscore s = false → py_split "_"%char s = [s].
Proof.
  induction s as [|c s IH]; [done|]. cbn. intros [Hc Hs]%orb_false_iff.
  apply bool_decide_eq_false in Hc. rewrite decide_False by done.
  by rewrite IH.
Qed.

Lemma last_segment_plain (s : string) :
  has_underscore s = false → last_segment s = s.
Proof. intros Hs. unfold last_segment. by rewrite py_split_plain. Qed.

Lemma py_split_app_sep_length (p s : string) :
  (2 ≤ length (py_split "_"%char (p +:+ String "_"%char s)))%nat.
Proof.
  induction p as [|c p IH]; simpl.
  - pose proof (py_split_nonempty "_"%char s).
    destruct (py_split "_"%char s); [done|]. simpl. lia.
  - case_decide; [simpl; lia|].
    destruct (py_split "_"%char (p +:+ String "_"%char s)); simpl in *; lia.
Qed.

(** What precedes an underscore does not count. *)
Lemma last_segment_app_sep (p s : string) :
  last_segment (p +:+ String "_"%char s) = last_segment s.
Proof.
  unfold last_segment. induction p as [|c p IH]; simpl.
  - pose proof (py_split_nonempty "_"%char s).
    by destruct (py_split "_"%char s).
  - pose proof (py_split_app_sep_length p s) as Hlen.
    case_decide.
    + rewrite <- IH. by destruct (py_split "_"%char (p +:+ String "_"%char s)).
    + rewrite <- IH.
      destruct (py_split "_"%char (p +:+ String "_"%char s)) as [|seg [|seg' rest]];
        cbn in *; [lia|lia|done].
Qed.

Lemma startswith_app (p s : string) : startswith (p +:+ s) p = true.
Proof.
  unfold startswith. induction p as [|c p IH]; [by destruct s|]. simpl.
  by destruct (Ascii.ascii_dec c c).
Qed.

Lemma all_digits_plain (s : string) :
  all_digits s = true → has_underscore s = false ∧ is_ascii s = true.
Proof.
  induction s as [|c s IH]; [done|]. cbn. intros [Hc Hs]%andb_true_iff.
  destruct (IH Hs) as [-> ->]. apply bool_decide_eq_true in Hc as [d Hd].
  unfold digit_of in Hd. case_decide as Hr; [|done]. split.
  - rewrite orb_false_r. apply bool_decide_eq_false. intros ->.
    revert Hr. vm_compute. intros [_ Hr]. by apply Hr.
  - rewrite andb_true_r. apply bool_decide_eq_true. lia.
Qed.

Lemma digit_of_pretty_char (d : N) :
  (d < 10)%N → digit_of (pretty_N_char d) = Some (Z.of_N d).
Proof.
  intros Hd.
  assert (d = 0 ∨ d = 1 ∨ d = 2 ∨ d = 3 ∨ d = 4 ∨ d = 5 ∨ d = 6 ∨ d = 7 ∨ d = 8 ∨ d = 9)%N
    as Hcases by lia.
  by repeat (destruct Hcases as [->|Hcases]; [done|]); subst.
Qed.

Lemma all_digits_pretty_go (x : N) (s : string) :
  all_digits s = true → all_digits (pretty_N_go x s) = true.
Proof.
  revert s. induction (N.lt_wf_0 x) as [x _ IH]; intros s Hs.
  destruct (decide (x = 0)%N) as [->|Hx]; [by rewrite pretty_N_go_0|].
  rewrite pretty_N_go_step by lia. apply IH; [apply N.div_lt; lia|].
  cbn. rewrite Hs, andb_true_r. apply bool_decide_eq_true.
  rewrite digit_of_pretty_char; [done|]. apply N.mod_lt. lia.
Qed.

Lemma int_unsigned_cons (c : Ascii.ascii) (s : string) (d : Z) :
  digit_of c = Some d → int_unsigned (String c s) = int_digits d s.
Proof. intros Hd. unfold int_unsigned. by rewrite Hd. Qed.

Lemma int_digits_cons (acc : Z) (c : Ascii.ascii) (s : string) (d : Z) :
  digit_of c = Some d → int_digits acc (String c s) = int_digits (10 * acc + d) s.
Proof. intros Hd. simpl. by rewrite Hd. Qed.

(** Reading back the digits that [pretty] writes in front of [s]. *)
Lemma int_unsigned_pretty_go (x : N) (s : string) :
  (0 < x)%N → int_unsigned (pretty_N_go x s) = int_digits (Z.of_N x) s.
Proof.
  revert s. induction (N.lt_wf_0 x) as [x _ IH]; intros s Hx.
  rewrite pretty_N_go_step by done.
  pose proof (digit_of_pretty_char (x `mod` 10)%N) as Hd.
  specialize (Hd ltac:(apply N.mod_lt; lia)).
  pose proof (N.div_mod' x 10) as Hx10.
  destruct (decide (x `div` 10 = 0)%N) as [Hq|Hq].
  - rewrite Hq, pretty_N_go_0. rewrite (int_unsigned_cons _ _ _ Hd).
    f_equal. rewrite Hq, N.mul_0_r, N.add_0_l in Hx10. by rewrite <- Hx10.
  - rewrite IH; [|apply N.div_lt; lia|by apply N.neq_0_lt_0].
    rewrite (int_digits_cons _ _ _ _ Hd). f_equal. clear IH Hd Hq.
    set (q := (x `div` 10)%N) in *. set (r := (x `mod` 10)%N) in *.
    clearbody q r. lia.
Qed.

Lemma pretty_N_digits (x : N) : all_digits (pretty x) = true.
Proof.
  unfold pretty, pretty_N. case_decide; [done|]. by apply all_digits_pretty_go.
Qed.

Lemma int_unsigned_pretty_N (x : N) : int_unsigned (pretty x) = Some (Z.of_N x).
Proof.
  unfold pretty, pretty_N. case_decide as Hx; [by subst|].
  rewrite int_unsigned_pretty_go by lia. done.
Qed.

Lemma lstrip_digits (s : string) : all_digits s = true → lstrip s = s.
Proof.
  destruct s as [|c s]; [done|]. cbn. intros [Hc _]%andb_true_iff.
  apply bool_decide_eq_true in Hc as [d Hd]. unfold digit_of in Hd.
  case_decide as Hr; [|done]. unfold is_space.
  rewrite !bool_decide_eq_false_2 by lia. done.
Qed.

Lemma int_ascii_digits (limit : nat) (s : string) :
  within_digit_limit limit s = true →
  all_digits s = true → int_ascii limit s = int_unsigned s.
Proof.
  intros Hlim Hs. unfold int_ascii. rewrite Hlim, lstrip_digits by done.
  destruct s as [|c s]; [done|]. cbn in Hs. apply andb_true_iff in Hs as [Hc _].
  apply bool_decide_eq_true in Hc as [d Hd].
  destruct c as [[] [] [] [] [] [] [] []]; try done.
Qed.

(** [int] reads back what an f-string writes for an integer, when the
    digits are within the limit; and the written integer is a single
    segment of ASCII characters. *)
Lemma int_ascii_pretty (limit : nat) (z : Z) :
  within_digit_limit limit (pretty z) = true →
  int_ascii limit (pretty z) = Some z
  ∧ has_underscore (pretty z) = false ∧ is_ascii (pretty z) = true.
Proof.
  destruct z as [|p|p]; intros Hlim.
  - split; [|done]. unfold int_ascii. by rewrite Hlim.
  - change (pretty (Z.pos p)) with (pretty (N.pos p)) in *.
    pose proof (pretty_N_digits (N.pos p)) as Hd.
    rewrite int_ascii_digits, int_unsigned_pretty_N by done.
    split; [done|]. by apply all_digits_plain.
  - change (pretty (Z.neg p)) with ("-" +:+ pretty (N.pos p)) in *.
    pose proof (pretty_N_digits (N.pos p)) as Hd.
    destruct (all_digits_plain _ Hd) as [Hu Ha].
    pose proof (int_unsigned_pretty_N (N.pos p)) as Hi.
    revert Hlim Hu Ha Hi. generalize (pretty (N.pos p)). intros t Hlim Hu Ha Hi.
    change ("-" +:+ t) with (String "-" t) in *.
    unfold int_ascii. rewrite Hlim. simpl. by rewrite Hu, Ha, Hi.
Qed.

End DecodeFacts.

Section ButtonRoundTrip.

Context (int_beyond_ascii : string → option Z) (int_max_str_digits : nat).

Lemma head_app (c : Ascii.ascii) (p s : string) : String c p +:+ s = String c (p +:+ s).
Proof. done. Qed.

Ltac other_literal :=
  let H := fresh in
  intros H; rewrite head_app in H; discriminate H.

Lemma decode_country_page (z : Z) :
  within_digit_limit int_max_str_digits (pretty z) = true →
  decode_callback int_beyond_ascii int_max_str_digits ("country_page_" +:+ pretty z)
  = Done (country_page_ z).
Proof.
  intros Hlim. unfold decode_callback.
  rewrite !decide_False by other_literal.
  rewrite startswith_app. unfold int_of_last_segment.
  change (last_segment ("country_page_" +:+ pretty z))
    with (last_segment ("country_page" +:+ String "_" (pretty z))).
  rewrite last_segment_app_sep.
  destruct (int_ascii_pretty int_max_str_digits z Hlim) as (Hi & Hu & Ha).
  by rewrite last_segment_plain, Ha, Hi.
Qed.

Lemma decode_select_country (s : string) :
  decode_callback int_beyond_ascii int_max_str_digits ("select_country_" +:+ s)
  = Done (select_country_ (last_segment s)).
Proof.
  unfold decode_callback.
  rewrite !decide_False by other_literal.
  replace (startswith ("select_country_" +:+ s) "country_page_") with false by done.
  rewrite startswith_app.
  change (last_segment ("select_country_" +:+ s))
    with (last_segment ("select_country" +:+ String "_" s)).
  by rewrite last_segment_app_sep.
Qed.

Lemma decode_view_sms (s : string) :
  decode_callback int_beyond_ascii int_max_str_digits ("view_sms_" +:+ s) = Done (view_sms_ (last_segment s)).
Proof.
  unfold decode_callback.
  rewrite !decide_False by other_literal.
  replace (startswith ("view_sms_" +:+ s) "country_page_") with false by done.
  replace (startswith ("view_sms_" +:+ s) "select_country_") with false by done.
  rewrite startswith_app.
  change (last_segment ("view_sms_" +:+ s))
    with (last_segment ("view_sms" +:+ String "_" s)).
  by rewrite last_segment_app_sep.
Qed.

Lemma py_split_segments_plain (s seg : string) :
  seg ∈ py_split "_"%char s → has_underscore seg = false.
Proof.
  revert seg. induction s as [|c s IH]; intros seg; simpl.
  - by intros ->%list_elem_of_singleton.
  - case_decide as Hc.
    + intros [->|Hin]%elem_of_cons; [done|]. by apply IH.
    + pose proof (py_split_nonempty "_"%char s).
      destruct (py_split "_"%char s) as [|seg0 rest]; [done|].
      intros [->|Hin]%elem_of_cons.
      * simpl. rewrite bool_decide_eq_false_2 by done.
        apply IH, elem_of_cons. by left.
      * apply IH, elem_of_cons. by right.
Qed.

Lemma last_segment_no_underscore (s : string) : has_underscore (last_segment s) = false.
Proof.
  unfold last_segment. destruct (last (py_split "_"%char s)) as [seg|] eqn:Hl; [|done].
  apply (py_split_segments_plain s). simpl.
  apply last_Some in Hl as [l' ->]. apply elem_of_app. right.
  by apply list_elem_of_singleton.
Qed.

(** X13.  The button of a country is read back as a purchase for what follows
    the last underscore of its code: the code itself when it has no
    underscore, and otherwise a different code, its last segment. *)
Theorem country_button_reads_back_last_segment (country : pydict) :
  let code := py_str (dict_get_default country "country_code" (PyStr "")) in
  (callback_data <$> country_button country = ["select_country_" +:+ code])
  ∧ decode_callback int_beyond_ascii int_max_str_digits ("select_country_" +:+ code)
    = Done (select_country_ (last_segment code))
  ∧ (if has_underscore code then last_segment code ≠ code else last_segment code = code).
Proof.
  cbv zeta. split; [done|]. split; [apply decode_select_country|].
  destruct (has_underscore _) eqn:Hu; [|by apply last_segment_plain].
  intros Heq. pose proof (last_segment_no_underscore
    (py_str (dict_get_default country "country_code" (PyStr "")))) as Hn.
  rewrite Heq in Hn. congruence.
Qed.

(** X10.  Each row of the [/mysms] keyboard belongs to one of the first five
    owned ids that is registered, shows its phone number, and is read back
    as a request for the SMS of what follows the last underscore of the
    id. *)
Theorem sms_rows_read_back (w : world) (user_numbers : list pyval) (row : list InlineKeyboardButton) :
  row ∈ sms_rows w user_numbers →
  ∃ n info,
    n ∈ take 5 user_numbers
    ∧ purchased_numbers w !! n = Some info
    ∧ row = [ {| label := "📱 " +:+ py_str (phone_number info);
                 callback_data := "view_sms_" +:+ py_str n |} ]
    ∧ decode_callback int_beyond_ascii int_max_str_digits ("view_sms_" +:+ py_str n)
      = Done (view_sms_ (last_segment (py_str n))).
Proof.
  unfold sms_rows. intros (n & Hn & Hrow)%list_elem_of_omap.
  replace (py_slice user_numbers 0 5) with (take 5 user_numbers) in Hn.
  2:{ change 0 with (Z.of_nat 0). change 5 with (Z.of_nat 5).
      rewrite py_slice_nat by lia. done. }
  destruct (purchased_numbers w !! n) as [info|] eqn:Hl; [|done].
  cbn in Hrow. injection Hrow as <-.
  exists n, info. repeat split; try done. apply decode_view_sms.
Qed.

(** X12.  The callback data of the Next button of page [k] is read back as page
    [k + 1] and that of the Previous button as page [k - 1], for every
    integer [k] whose neighbours are written with no more digits than [int]
    accepts; so pressing Next runs the handler for page [k + 1] and
    pressing Previous runs it for page [k - 1]. *)
Theorem page_buttons_lead_to_neighbours
    (net : network) (RAPIDAPI_KEY : string) (update : Update) (k : Z) (now : string) :
  within_digit_limit int_max_str_digits (pretty (k + 1)) = true →
  within_digit_limit int_max_str_digits (pretty (k - 1)) = true →
  decode_callback int_beyond_ascii int_max_str_digits (callback_data (next_button k))
  = Done (country_page_ (k + 1))
  ∧ decode_callback int_beyond_ascii int_max_str_digits (callback_data (previous_button k))
    = Done (country_page_ (k - 1))
  ∧ button_press int_beyond_ascii int_max_str_digits net RAPIDAPI_KEY update (callback_data (next_button k)) now
    = button_handler net RAPIDAPI_KEY update (country_page_ (k + 1)) now
  ∧ button_press int_beyond_ascii int_max_str_digits net RAPIDAPI_KEY update
      (callback_data (previous_button k)) now
    = button_handler net RAPIDAPI_KEY update (country_page_ (k - 1)) now.
Proof.
  intros Hnext Hprev.
  unfold button_press, next_button, previous_button. cbn [callback_data].
  rewrite !decode_country_page by done. done.
Qed.

End ButtonRoundTrip.

Section ButtonRoundTripScenario.

Import Scenario.

(** The one row of Alice's keyboard after she bought number 123. *)
Lemma sms_rows_read_back_witness :
  [ {| label := "📱 +15550100"; callback_data := "view_sms_123" |} ]
    ∈ sms_rows w_bought [PyStr "123"]
  ∧ decode_callback (fun _ => None) 4300 "view_sms_123" = Done (view_sms_ "123").
Proof.
  assert (Hin : [ {| label := "📱 +15550100"; callback_data := "view_sms_123" |} ]
                  ∈ sms_rows w_bought [PyStr "123"]).
  { replace (sms_rows w_bought [PyStr "123"])
      with [[ {| label := "📱 +15550100"; callback_data := "view_sms_123" |} ]]
      by (vm_compute; reflexivity).
    apply list_elem_of_singleton. reflexivity. }
  split; [exact Hin|].
  destruct (sms_rows_read_back (fun _ => None) 4300 w_bought [PyStr "123"] _ Hin)
    as (n & info & Hn & _ & Hrow & Hdec).
  apply list_elem_of_singleton in Hn. subst n. exact Hdec.
Defined.

(** The buttons of page 1, with the default limit of 4300 digits. *)
Lemma page_buttons_lead_to_neighbours_witness :
  within_digit_limit 4300 (pretty (1 + 1)) = true
  ∧ within_digit_limit 4300 (pretty (1 - 1)) = true
  ∧ decode_callback (fun _ => None) 4300 "country_page_2" = Done (country_page_ 2)
  ∧ decode_callback (fun _ => None) 4300 "country_page_0" = Done (country_page_ 0).
Proof.
  assert (Hn : within_digit_limit 4300 (pretty (1 + 1)) = true) by reflexivity.
  assert (Hp : within_digit_limit 4300 (pretty (1 - 1)) = true) by reflexivity.
  split; [exact Hn|]. split; [exact Hp|].
  destruct (page_buttons_lead_to_neighbours (fun _ => None) 4300 provider key
              {| effective_user := alice; kind := CallbackQuery |} 1 t0 Hn Hp)
    as (H1 & H2 & _).
  split; [exact H1|exact H2].
Defined.

End ButtonRoundTripScenario.

(** ** What each event does to the two stores *)

Section StoresByEvent.

Context (net : network) (RAPIDAPI_KEY : string).

(** Event by event: a cancel command may set one status to cancelled;
    [start], by command or by the main-menu button, writes the record of
    its user anew; a press of a country button may store a number; every
    other event leaves the registry and the user store as they are. *)
Lemma step_stores_by_event (w : world) (e : event) :
  let w' := step net RAPIDAPI_KEY w e in
  match e with
  | on_command user (cmd_cancel (arg :: _)) _ =>
      let n := PyStr arg in
      purchased_numbers w' =
        (if bool_decide (n ∈ default [] (owned_numbers w (id user)))
            && bool_decide (is_Some (purchased_numbers w !! n))
            && success (cancel_answer net RAPIDAPI_KEY w n)
         then alter (set_status cancelled) n (purchased_numbers w)
         else purchased_numbers w)
      ∧ user_data_store w' = user_data_store w
  | on_command user cmd_start now | on_button user main_menu now =>
      purchased_numbers w' = purchased_numbers w
      ∧ user_data_store w' = <[id user := started_record user now]> (user_data_store w)
  | on_button user (select_country_ c) now =>
      match purchased (purchase_answer net RAPIDAPI_KEY w c) with
      | Some (n, phone) =>
          purchased_numbers w'
          = <[n := {| user_id := id user; country_code := c; phone_number := phone;
                      purchase_date := now; status := active |}]> (purchased_numbers w)
          ∧ user_data_store w'
            = append_number (id user) n
                (ensure_numbers (id user) (ensure_user (id user) (user_data_store w)))
      | None =>
          purchased_numbers w' = purchased_numbers w
          ∧ user_data_store w' = user_data_store w
      end
  | _ =>
      purchased_numbers w' = purchased_numbers w
      ∧ user_data_store w' = user_data_store w
  end.
Proof.
  cbv zeta. unfold step. destruct e as [user c now|user data now|]; cbn [handle].
  - destruct c as [| | |args| | |args].
    + split; [apply start_registry|apply start_users].
    + split; [apply help_registry|apply help_users].
    + split; [apply list_countries_registry|apply list_countries_users].
    + destruct args as [|c args].
      * split; [apply purchase_menu_registry|apply purchase_menu_users].
      * cbn [purchase_number_command]. by rewrite purchase_registry, purchase_users.
    + split; [apply my_sms_registry|apply my_sms_users].
    + split; [apply active_numbers_registry|apply active_numbers_users].
    + destruct args as [|arg rest].
      * unfold cancel_number_command. split; by frame.
      * rewrite cancel_eq. cbn [snd].
        destruct (bool_decide (PyStr arg ∈ _)); cbn [negb andb]; [|done].
        destruct (bool_decide (is_Some _)); cbn [negb andb]; [|done].
        by destruct (success _).
  - destruct data as [| | | | |page|c|number_id|]; cbn [button_handler].
    + split; [apply start_registry|apply start_users].
    + split; [apply list_countries_registry|apply list_countries_users].
    + split; [apply purchase_menu_registry|apply purchase_menu_users].
    + split; [apply my_sms_registry|apply my_sms_users].
    + split; [apply help_registry|apply help_users].
    + split; [apply (country_page_registry net RAPIDAPI_KEY _ page now)
             |apply (country_page_users net RAPIDAPI_KEY _ page now)].
    + rewrite purchase_registry, purchase_users. cbn [kind effective_user].
      by destruct (purchased _) as [[n phone]|].
    + split; [apply view_sms_registry|apply view_sms_users].
    + done.
  - done.
Qed.

End StoresByEvent.

(** ** What can happen to one record of the registry *)

Section RecordFacts.

Context (net : network) (RAPIDAPI_KEY : string).

(** One event and the record stored under [n]: it stays as it is; or the
    event creates a number under [n] again; or the event is a cancel
    command for [n] by a user who has [n] in the owned list, the provider
    accepts, and the status becomes cancelled. *)
Lemma step_record (w : world) (e : event) (n : pyval) (info : number_info) :
  purchased_numbers w !! n = Some info →
  purchased_numbers (step net RAPIDAPI_KEY w e) !! n = Some info
  ∨ created_id net RAPIDAPI_KEY w e = Some n
  ∨ (∃ user arg rest now,
        e = on_command user (cmd_cancel (arg :: rest)) now
        ∧ n = PyStr arg
        ∧ n ∈ default [] (owned_numbers w (id user))
        ∧ success (cancel_answer net RAPIDAPI_KEY w n) = true
        ∧ purchased_numbers (step net RAPIDAPI_KEY w e) !! n
          = Some (set_status cancelled info)).
Proof.
  intros Hl. pose proof (step_stores_by_event net RAPIDAPI_KEY w e) as Hs.
  cbv zeta in Hs.
  destruct e as [user c now|user data now|].
  - destruct c as [| | |args| | |[|arg rest]];
      try (left; destruct Hs as [-> _]; exact Hl).
    destruct Hs as [Hp _]. rewrite Hp.
    destruct (bool_decide (PyStr arg ∈ _)) eqn:Hown; cbn [andb]; [|by left].
    destruct (bool_decide (is_Some _)) eqn:Hreg; cbn [andb]; [|by left].
    destruct (success _) eqn:Hok; [|by left].
    destruct (decide (PyStr arg = n)) as [<-|Hne].
    + right; right. exists user, arg, rest, now.
      apply bool_decide_eq_true in Hown.
      repeat split; try done. by rewrite lookup_alter_eq, Hl.
    + left. by rewrite lookup_alter_ne.
  - destruct data as [| | | | |page|c|number_id|];
      try (left; destruct Hs as [-> _]; exact Hl).
    cbn [created_id].
    destruct (purchased _) as [[m phone]|]; [|left; destruct Hs as [-> _]; exact Hl].
    destruct Hs as [-> _]. cbn.
    destruct (decide (m = n)) as [->|Hne]; [by right; left|].
    left. by rewrite lookup_insert_ne.
  - left. destruct Hs as [-> _]. exact Hl.
Qed.

(** X14.  A number whose status is cancelled keeps its record, status included,
    through any events none of which creates a number under its id again:
    nothing sets a status back to active. *)
Theorem cancelled_is_final (es : list event) (w : world) (n : pyval) (info : number_info) :
  purchased_numbers w !! n = Some info →
  status info = cancelled →
  recreated net RAPIDAPI_KEY n w es = false →
  purchased_numbers (run net RAPIDAPI_KEY es w) !! n = Some info.
Proof.
  revert w. induction es as [|e es IH]; intros w Hl Hst Hre; [done|].
  cbn in Hre. apply orb_false_iff in Hre as [Hnew Hre].
  apply bool_decide_eq_false in Hnew.
  apply (IH (step net RAPIDAPI_KEY w e)); [|done|done].
  destruct (step_record w e n info Hl) as [H|[H|(? & ? & ? & ? & _ & _ & _ & _ & H)]];
    [done|done|].
  rewrite H. f_equal. destruct info; cbn in *; by subst.
Qed.

(** X15.  If an event turns the status of an active number into cancelled, the
    event is a cancel command whose argument is the number's id, sent by a
    user who has that id in the owned list, and the provider accepted the
    cancellation. *)
Theorem only_a_listed_cancel_cancels (w : world) (e : event) (n : pyval) (info : number_info) :
  purchased_numbers w !! n = Some info →
  status info = active →
  (status <$> purchased_numbers (step net RAPIDAPI_KEY w e) !! n) = Some cancelled →
  ∃ user arg rest now,
    e = on_command user (cmd_cancel (arg :: rest)) now
    ∧ n = PyStr arg
    ∧ n ∈ default [] (owned_numbers w (id user))
    ∧ success (cancel_answer net RAPIDAPI_KEY w n) = true.
Proof.
  intros Hl Hact Hc.
  destruct (step_record w e n info Hl)
    as [H|[H|(user & arg & rest & now & He & Hn & Hown & Hok & _)]].
  - rewrite H in Hc. cbn in Hc. congruence.
  - exfalso. pose proof (step_stores_by_event net RAPIDAPI_KEY w e) as Hs.
    cbv zeta in Hs. destruct e as [user c now|user [| | | | |page|c|number_id|] now|];
      try done.
    cbn in H. destruct (purchased _) as [[m phone]|]; [|done].
    cbn in H. injection H as ->. destruct Hs as [Hp _].
    rewrite Hp, lookup_insert_eq in Hc. done.
  - by exists user, arg, rest, now.
Qed.

(** X16.  A number stored under an id that is not a string, as when the provider
    sends a JSON integer or no id at all, keeps its record and its status
    through any events none of which creates a number under that id again:
    no cancel command can name it. *)
Theorem non_string_id_is_never_cancelled
    (es : list event) (w : world) (n : pyval) (info : number_info) :
  purchased_numbers w !! n = Some info →
  (∀ s, n ≠ PyStr s) →
  recreated net RAPIDAPI_KEY n w es = false →
  purchased_numbers (run net RAPIDAPI_KEY es w) !! n = Some info.
Proof.
  intros Hl Hn. revert w Hl. induction es as [|e es IH]; intros w Hl Hre; [done|].
  cbn in Hre. apply orb_false_iff in Hre as [Hnew Hre].
  apply bool_decide_eq_false in Hnew.
  apply (IH (step net RAPIDAPI_KEY w e)); [|done].
  destruct (step_record w e n info Hl) as [H|[H|(? & arg & ? & ? & _ & Harg & _)]];
    [done|done|].
  by destruct (Hn arg).
Qed.

Lemma step_registry_keeps (w : world) (e : event) (n : pyval) :
  is_Some (purchased_numbers w !! n) →
  is_Some (purchased_numbers (step net RAPIDAPI_KEY w e) !! n).
Proof.
  intros [info Hl].
  destruct (step_stores net RAPIDAPI_KEY w e)
    as [[-> _]|[(m & -> & _)|[(? & ? & _ & -> & _)|(user & c & now & m & phone & _ & _ & -> & _)]]].
  - eauto.
  - rewrite lookup_alter. case_decide; simplify_eq; rewrite Hl; eauto.
  - eauto.
  - rewrite lookup_insert. case_decide; eauto.
Qed.

(** X17.  Nothing is ever deleted: a number that is in the registry and a user
    who has a record are still there after any events. *)
Theorem nothing_is_ever_deleted (es : list event) (w : world) (n : pyval) (u : Z) :
  is_Some (purchased_numbers w !! n) →
  is_Some (user_data_store w !! u) →
  is_Some (purchased_numbers (run net RAPIDAPI_KEY es w) !! n)
  ∧ is_Some (user_data_store (run net RAPIDAPI_KEY es w) !! u).
Proof.
  revert w. induction es as [|e es IH]; intros w Hn Hu; [done|].
  apply (IH (step net RAPIDAPI_KEY w e)).
  - by apply step_registry_keeps.
  - by apply user_record_never_deleted.
Qed.

End RecordFacts.

(** ** One user's events and the other users *)

Section Isolation.

Context (net : network) (RAPIDAPI_KEY : string).

Lemma purchase_store_elsewhere (s : gmap Z user_record) (uid v : Z) (n : pyval) :
  v ≠ uid →
  append_number uid n (ensure_numbers uid (ensure_user uid s)) !! v = s !! v.
Proof.
  intros Hv. unfold append_number, ensure_numbers, ensure_user.
  rewrite !lookup_alter_ne by done.
  destruct (s !! uid); [done|]. by rewrite lookup_insert_ne.
Qed.

Ltac session_frame :=
  frame;
  try (apply preserves_modify; intros ?; cbn; by rewrite lookup_insert_ne).

Lemma show_countries_page_session (update : Update) (page : Z) (v : Z) :
  preserves (fun w => user_data w !! v) (show_countries_page update page).
Proof. unfold show_countries_page. frame. Qed.

Lemma handle_session_elsewhere (e : event) (v : Z) :
  event_user e ≠ Some v →
  preserves (fun w => user_data w !! v) (handle net RAPIDAPI_KEY e).
Proof.
  intros Hv.
  pose proof (show_countries_page_session) as Hshow.
  destruct e as [user c now|user data now|]; cbn [handle].
  - assert (id user ≠ v) by (intros <-; by apply Hv).
    destruct c as [| | |[|c args]| | |args];
      unfold start, help_command, list_countries_command, purchase_number_command,
        purchase_for_country, my_sms_command, active_numbers_command,
        cancel_number_command;
      session_frame.
  - assert (id user ≠ v) by (intros <-; by apply Hv).
    destruct data as [| | | | |page|c|number_id|]; cbn [button_handler];
      unfold start, help_command, list_countries_command, purchase_number_command,
        purchase_for_country, my_sms_command, view_sms_messages;
      session_frame.
  - unfold scheduler_firing, check_sms_scheduler_call. frame.
Qed.

(** X18.  An event of one user changes neither the record, with its owned list,
    nor the browsing session of any other user; a firing of the poll loop
    changes those of nobody. *)
Theorem other_users_are_untouched (w : world) (e : event) (v : Z) :
  event_user e ≠ Some v →
  user_data_store (step net RAPIDAPI_KEY w e) !! v = user_data_store w !! v
  ∧ owned_numbers (step net RAPIDAPI_KEY w e) v = owned_numbers w v
  ∧ user_data (step net RAPIDAPI_KEY w e) !! v = user_data w !! v.
Proof.
  intros Hv.
  assert (Hs : user_data_store (step net RAPIDAPI_KEY w e) !! v = user_data_store w !! v).
  { pose proof (step_stores_by_event net RAPIDAPI_KEY w e) as Hs. cbv zeta in Hs.
    destruct e as [user c now|user data now|].
    - assert (id user ≠ v) by (intros <-; by apply Hv).
      destruct c as [| | |args| | |[|arg rest]]; destruct Hs as [_ ->];
        rewrite ?lookup_insert_ne by done; done.
    - assert (id user ≠ v) by (intros <-; by apply Hv).
      destruct data as [| | | | |page|c|number_id|];
        try (destruct Hs as [_ ->]; rewrite ?lookup_insert_ne by done; done).
      destruct (purchased _) as [[n phone]|]; destruct Hs as [_ ->]; [|done].
      by apply purchase_store_elsewhere.
    - by destruct Hs as [_ ->]. }
  split; [done|]. split.
  - unfold owned_numbers. by rewrite Hs.
  - apply (handle_session_elsewhere e v Hv).
Qed.

End Isolation.

(** ** A purchase, in full *)

Section PurchaseFacts.

Context (net : network) (RAPIDAPI_KEY : string).

Lemma purchase_eq (user : tg_user) (c now : string) (w : world) :
  let result := purchase_answer net RAPIDAPI_KEY w c in
  purchase_for_country net RAPIDAPI_KEY {| effective_user := user; kind := CallbackQuery |}
    c now w =
  if success result then
    match default (PDict ∅) (data result) with
    | PDict d =>
        let n := dict_get d "number_id" in
        let phone := dict_get d "phone_number" in
        (Done tt,
         set_outbox (fun o => o ++ [edit_text (purchased_text phone c n) None MARKDOWN])
           (set_user_data_store
              (fun s => append_number (id user) n
                          (ensure_numbers (id user) (ensure_user (id user) s)))
              (set_purchased_numbers
                 <[n := {| user_id := id user; country_code := c; phone_number := phone;
                           purchase_date := now; status := active |}]>
                 (asked RAPIDAPI_KEY w c))))
    | PList _ =>
        (Raised (RuntimeFault "AttributeError: 'list' object has no attribute 'get'"),
         asked RAPIDAPI_KEY w c)
    | PNull =>
        (Raised (RuntimeFault "AttributeError: 'NoneType' object has no attribute 'get'"),
         asked RAPIDAPI_KEY w c)
    end
  else
    (Done tt,
     set_outbox
       (fun o => o ++ [edit_text
                         ("❌ Purchase failed: "
                          +:+ py_str (default (PyStr "Purchase failed") (error result)))
                         None PlainText])
       (asked RAPIDAPI_KEY w c)).
Proof.
  cbv zeta. unfold purchase_for_country, callback_message_reply_text, message_edit_text,
    send_message, purchase_answer, asked.
  cbn [kind effective_user]. unfold bind at 1. unfold modify at 1. cbn iota.
  unfold bind at 1. rewrite purchase_number_eq. cbn [http_log set_outbox].
  destruct (success _); [|done].
  by destruct (default (PDict ∅) _).
Qed.

(** X1.  A successful purchase through a country button: the number is stored
    as active under the presser's id with the country and the time of the
    purchase; its id goes to the end of the presser's owned list, the rest
    of the record being kept; one purchase request for that country and the
    service telegram is sent; the confirmation names phone number, country
    and id. *)
Theorem purchase_stores_and_appends
    (user : tg_user) (c now : string) (w : world) (n phone : pyval) :
  purchased (purchase_answer net RAPIDAPI_KEY w c) = Some (n, phone) →
  let w' := step net RAPIDAPI_KEY w (on_button user (select_country_ c) now) in
  purchased_numbers w' !! n
  = Some {| user_id := id user; country_code := c; phone_number := phone;
            purchase_date := now; status := active |}
  ∧ (∀ m, m ≠ n → purchased_numbers w' !! m = purchased_numbers w !! m)
  ∧ owned_numbers w' (id user) = Some (default [] (owned_numbers w (id user)) ++ [n])
  ∧ (user_data_store w' !! id user ≫= user_profile)
    = (user_data_store w !! id user ≫= user_profile)
  ∧ http_log w'
    = http_log w ++ [ {| method := POST;
                         url := "https://virtual-number.p.rapidapi.com/api/v1/e-sim/purchase";
                         headers := [("x-rapidapi-host", RAPIDAPI_HOST);
                                     ("x-rapidapi-key", RAPIDAPI_KEY);
                                     ("Content-Type", "application/json")];
                         json := Some [("country_code", c); ("service", "telegram")];
                         timeout := 10 |} ]
  ∧ outbox w'
    = outbox w ++ [ reply_text ("🔄 Purchasing number for " +:+ c +:+ "...") None PlainText;
                    edit_text (purchased_text phone c n) None MARKDOWN ]
  ∧ user_data w' = user_data w.
Proof.
  intros Hp w'. subst w'. unfold step. cbn [handle button_handler].
  rewrite purchase_eq. cbv zeta. unfold purchased in Hp.
  destruct (success _); [|done].
  destruct (default (PDict ∅) _) as [|d|]; [done| |done].
  injection Hp as <- <-. cbn [snd].
  split; [cbn; by rewrite lookup_insert_eq|].
  split; [intros m Hm; cbn; by rewrite lookup_insert_ne|].
  split.
  { unfold owned_numbers. cbn [user_data_store set_outbox set_user_data_store].
    rewrite owned_after_purchase. by rewrite decide_True. }
  split.
  { cbn [user_data_store set_outbox set_user_data_store set_purchased_numbers asked
           set_http_log].
    unfold append_number, ensure_numbers, ensure_user. rewrite !lookup_alter_eq.
    destruct (user_data_store w !! id user) as [r|] eqn:Hr.
    - rewrite Hr. cbn. by destruct (numbers r).
    - by rewrite lookup_insert_eq. }
  split; [done|]. split; [|done].
  cbn. by rewrite <- app_assoc.
Qed.

(** X2.  A purchase that the provider does not grant, be it a transport error,
    a rejected status or a failure reported in the body, changes neither
    the registry nor the user store; after the one request, the message
    shows the error text as received. *)
Theorem failed_purchase_changes_nothing (user : tg_user) (c now : string) (w : world) :
  success (purchase_answer net RAPIDAPI_KEY w c) = false →
  let w' := step net RAPIDAPI_KEY w (on_button user (select_country_ c) now) in
  purchased_numbers w' = purchased_numbers w
  ∧ user_data_store w' = user_data_store w
  ∧ user_data w' = user_data w
  ∧ http_log w'
    = http_log w ++ [VirtualNumberAPI.purchase_number_request (api_client RAPIDAPI_KEY)
                       c "telegram"]
  ∧ outbox w'
    = outbox w
      ++ [ reply_text ("🔄 Purchasing number for " +:+ c +:+ "...") None PlainText;
           edit_text
             ("❌ Purchase failed: "
              +:+ py_str (default (PyStr "Purchase failed")
                            (error (purchase_answer net RAPIDAPI_KEY w c))))
             None PlainText ]
  ∧ (∀ e, net (http_log w)
            (VirtualNumberAPI.purchase_number_request (api_client RAPIDAPI_KEY) c "telegram")
          = inl e →
          py_str (default (PyStr "Purchase failed")
                    (error (purchase_answer net RAPIDAPI_KEY w c)))
          = exc_str e).
Proof.
  intros Hf w'. subst w'. unfold step. cbn [handle button_handler].
  rewrite purchase_eq. cbv zeta. rewrite Hf. cbn [snd].
  repeat split; try done.
  - cbn. by rewrite <- app_assoc.
  - intros e He. unfold purchase_answer. by rewrite He.
Qed.

(** X3.  A purchase answered with success whose ['data'] is missing, or is an
    object without a number id, stores the number under [None], with
    whatever phone number came, appends [None] to the presser's owned list
    and prints the id as the text None. *)
Theorem purchase_without_id_is_stored_under_none
    (user : tg_user) (c now : string) (w : world) (d : pydict) :
  success (purchase_answer net RAPIDAPI_KEY w c) = true →
  default (PDict ∅) (data (purchase_answer net RAPIDAPI_KEY w c)) = PDict d →
  d !! "number_id" = None →
  let w' := step net RAPIDAPI_KEY w (on_button user (select_country_ c) now) in
  purchased_numbers w' !! PyNone
  = Some {| user_id := id user; country_code := c;
            phone_number := dict_get d "phone_number";
            purchase_date := now; status := active |}
  ∧ owned_numbers w' (id user) = Some (default [] (owned_numbers w (id user)) ++ [PyNone])
  ∧ last (outbox w')
    = Some (edit_text (purchased_text (dict_get d "phone_number") c PyNone) None MARKDOWN).
Proof.
  intros Hs Hd Hn w'. subst w'. unfold step. cbn [handle button_handler].
  rewrite purchase_eq. cbv zeta. rewrite Hs, Hd. cbn [snd].
  assert (Hid : dict_get d "number_id" = PyNone) by (unfold dict_get; by rewrite Hn).
  rewrite Hid.
  split; [cbn; by rewrite lookup_insert_eq|]. split.
  { unfold owned_numbers. cbn [user_data_store set_outbox set_user_data_store].
    rewrite owned_after_purchase. by rewrite decide_True. }
  cbn. by rewrite last_snoc.
Qed.

(** X23.  A purchase answered with success and a ['data'] that is [null]
    stores nothing: after the first message and the request, the handler
    raises at [number_data.get], so the registry and the user store are as
    before and no second message follows. *)
Theorem purchase_with_null_data_stores_nothing
    (user : tg_user) (c now : string) (w : world) :
  success (purchase_answer net RAPIDAPI_KEY w c) = true →
  data (purchase_answer net RAPIDAPI_KEY w c) = Some PNull →
  let r := handle net RAPIDAPI_KEY (on_button user (select_country_ c) now) w in
  r.1 = Raised (RuntimeFault "AttributeError: 'NoneType' object has no attribute 'get'")
  ∧ purchased_numbers r.2 = purchased_numbers w
  ∧ user_data_store r.2 = user_data_store w
  ∧ user_data r.2 = user_data w
  ∧ http_log r.2
    = http_log w ++ [VirtualNumberAPI.purchase_number_request (api_client RAPIDAPI_KEY)
                       c "telegram"]
  ∧ outbox r.2
    = outbox w ++ [reply_text ("🔄 Purchasing number for " +:+ c +:+ "...") None PlainText].
Proof.
  intros Hs Hd r. subst r. cbn [handle button_handler].
  rewrite purchase_eq. cbv zeta. by rewrite Hs, Hd.
Qed.

End PurchaseFacts.

(** ** Browsing the countries *)

Section BrowsingFacts.

Context (net : network) (RAPIDAPI_KEY : string).

Lemma list_countries_eq (user : tg_user) (w : world) :
  let update := {| effective_user := user; kind := Command |} in
  let result :=
    result_of_answer
      (net (http_log w)
         (VirtualNumberAPI.get_all_countries_request (api_client RAPIDAPI_KEY))) in
  list_countries_command net RAPIDAPI_KEY update w =
  if success result then
    let countries := default (PList []) (data result) in
    if payload_truthy countries then
      show_countries_page update 0
        (set_user_data
           <[id user := {| countries := Some countries; country_page := Some 0 |}]>
           (fetching RAPIDAPI_KEY w))
    else
      (Done tt,
       set_outbox
         (fun o => o ++ [edit_text "❌ No countries available at the moment." None PlainText])
         (fetching RAPIDAPI_KEY w))
  else
    (Done tt,
     set_outbox
       (fun o => o ++ [edit_text
                         ("❌ Error fetching countries: "
                          +:+ py_str (default (PyStr "Unknown error") (error result)))
                         None PlainText])
       (fetching RAPIDAPI_KEY w)).
Proof.
  cbv zeta. unfold list_countries_command, update_message_reply_text, message_edit_text,
    send_message, fetching.
  cbn [kind effective_user]. unfold bind at 1. unfold modify at 1. cbn iota.
  unfold bind at 1. rewrite get_all_countries_eq. cbn [http_log set_outbox].
  destruct (success _); [|done].
  by destruct (payload_truthy _).
Qed.

Lemma show_countries_page_eq (update : Update) (page : Z) (w : world) :
  show_countries_page update page w =
  match default (PList []) (user_data w !! id (effective_user update) ≫= countries) with
  | PNull => (Raised (RuntimeFault "TypeError: 'NoneType' object is not subscriptable"), w)
  | PDict _ => (Raised (RuntimeFault "a dict cannot be sliced"), w)
  | PList l =>
      (Done tt,
       set_outbox
         (fun o => o ++ [edit_text (countries_text (Z.of_nat (length l)) page)
                           (Some (countries_keyboard l page)) MARKDOWN]) w)
  end.
Proof.
  unfold show_countries_page, bind, get_world.
  by destruct (default (PList []) _).
Qed.

(** X6.  The [/countries] command sends one request for the listing and never
    touches the registry or the user store.  On a failure it shows the
    error text and caches nothing; on an empty, absent or [null] listing it
    says that no country is available and caches nothing; on a listing with
    countries it caches the listing with page 0 in the user's session and
    shows page 0 of it. *)
Theorem countries_command_outcomes (user : tg_user) (now : string) (w : world) :
  let request := VirtualNumberAPI.get_all_countries_request (api_client RAPIDAPI_KEY) in
  let result := result_of_answer (net (http_log w) request) in
  let listing := default (PList []) (data result) in
  let w' := step net RAPIDAPI_KEY w (on_command user cmd_countries now) in
  let first := reply_text "🔄 Fetching available countries..." None PlainText in
  http_log w' = http_log w ++ [request]
  ∧ purchased_numbers w' = purchased_numbers w
  ∧ user_data_store w' = user_data_store w
  ∧ if success result then
      if payload_truthy listing then
        user_data w'
        = <[id user := {| countries := Some listing; country_page := Some 0 |}]> (user_data w)
        ∧ match listing with
          | PList l =>
              outbox w'
              = outbox w ++ [first;
                             edit_text (countries_text (Z.of_nat (length l)) 0)
                               (Some (countries_keyboard l 0)) MARKDOWN]
          | PDict _ | PNull => outbox w' = outbox w ++ [first]
          end
      else
        user_data w' = user_data w
        ∧ outbox w'
          = outbox w ++ [first;
                         edit_text "❌ No countries available at the moment." None PlainText]
    else
      user_data w' = user_data w
      ∧ outbox w'
        = outbox w ++ [first;
                       edit_text
                         ("❌ Error fetching countries: "
                          +:+ py_str (default (PyStr "Unknown error") (error result)))
                         None PlainText].
Proof.
  cbv zeta. unfold step. cbn [handle]. rewrite list_countries_eq. cbv zeta.
  destruct (success _).
  - destruct (payload_truthy _) eqn:Ht.
    + rewrite show_countries_page_eq.
      cbn [effective_user user_data set_user_data fetching set_http_log set_outbox].
      rewrite lookup_insert_eq. cbn [mbind option_bind countries default].
      destruct (default (PList []) _) as [|d|l]; cbn; rewrite <- ?app_assoc; done.
    + cbn. by rewrite <- app_assoc.
  - cbn. by rewrite <- app_assoc.
Qed.

(** X7.  A press of a page button contacts nobody: it keeps the cached listing,
    records the page in the user's session and shows that page of the
    cached listing, an empty one when nothing is cached. *)
Theorem page_press_shows_cached_listing
    (user : tg_user) (page : Z) (now : string) (w : world) :
  let cached := user_data w !! id user ≫= countries in
  let w' := step net RAPIDAPI_KEY w (on_button user (country_page_ page) now) in
  http_log w' = http_log w
  ∧ purchased_numbers w' = purchased_numbers w
  ∧ user_data_store w' = user_data_store w
  ∧ user_data w'
    = <[id user := {| countries := cached; country_page := Some page |}]> (user_data w)
  ∧ match default (PList []) cached with
    | PList l =>
        outbox w'
        = outbox w ++ [edit_text (countries_text (Z.of_nat (length l)) page)
                         (Some (countries_keyboard l page)) MARKDOWN]
    | PDict _ | PNull => outbox w' = outbox w
    end.
Proof.
  cbv zeta. unfold step. cbn [handle button_handler].
  unfold bind, modify. rewrite show_countries_page_eq.
  cbn [effective_user user_data set_user_data]. rewrite lookup_insert_eq.
  cbn [mbind option_bind countries].
  by destruct (default (PList []) _).
Qed.

End BrowsingFacts.

Section PagesFacts.

Lemma chunks_cover {A} (n : nat) (l : list A) :
  (length l ≤ 10 * n)%nat →
  concat ((fun k : nat => take 10 (drop (10 * k) l)) <$> seq 0 n) = l.
Proof.
  revert l. induction n as [|n IH]; intros l Hlen.
  - destruct l; [done|]. cbn in Hlen. lia.
  - cbn [seq fmap list_fmap concat]. rewrite <- fmap_S_seq, <- list_fmap_compose.
    rewrite (list_fmap_ext _ (fun k : nat => take 10 (drop (10 * k) (drop 10 l)))).
    + rewrite IH by (rewrite length_drop; lia).
      replace (10 * 0)%nat with 0%nat by lia. cbn [drop]. apply take_drop.
    + intros i k _. cbn. rewrite drop_drop. do 2 f_equal. lia.
Qed.

Lemma total_pages_bounds (len : nat) :
  0 ≤ total_pages (Z.of_nat len)
  ∧ (len ≤ 10 * Z.to_nat (total_pages (Z.of_nat len)))%nat
  ∧ ∀ k : nat, (k < Z.to_nat (total_pages (Z.of_nat len)))%nat ↔ (10 * k < len)%nat.
Proof.
  unfold total_pages, items_per_page.
  pose proof (Z.div_mod (Z.of_nat len - 1) 10 ltac:(lia)) as Hdm.
  pose proof (Z.mod_pos_bound (Z.of_nat len - 1) 10 ltac:(lia)) as Hr.
  set (q := (Z.of_nat len - 1) `div` 10) in *.
  set (r := (Z.of_nat len - 1) `mod` 10) in *.
  clearbody q r. repeat split; intros; lia.
Qed.

(** X8.  The pages of a listing: the page count that the text prints is the
    number of pages that are not empty, page [k] is not empty exactly when
    [k] is below that count, and the pages from 0 up to the count, put end
    to end, are the listing, each country once and in order. *)
Theorem pages_cover_the_listing (l : list pydict) :
  let page (k : nat) :=
    py_slice l (Z.of_nat k * items_per_page) (Z.of_nat k * items_per_page + items_per_page) in
  let count := Z.to_nat (total_pages (Z.of_nat (length l))) in
  concat (page <$> seq 0 count) = l
  ∧ (∀ k : nat, page k ≠ [] ↔ (k < count)%nat)
  ∧ ∀ k : Z,
      countries_text (Z.of_nat (length l)) k =
      "🌍 *Available Countries* (" +:+ pretty (Z.of_nat (length l)) +:+ " total)
" +:+ "Page " +:+ pretty (k + 1) +:+ " of " +:+ pretty (total_pages (Z.of_nat (length l)))
      +:+ "

" +:+ "Select a country to purchase a number:".
Proof.
  cbv zeta. destruct (total_pages_bounds (length l)) as (_ & Hlen & Hk).
  split; [|split; [|done]].
  - rewrite (list_fmap_ext _ (fun k : nat => take 10 (drop (10 * k) l)))
      by (intros; apply page_slice).
    by apply chunks_cover.
  - intros k. rewrite page_slice, Hk. split.
    + intros Hne. destruct (decide (10 * k < length l)%nat); [done|].
      destruct Hne. rewrite drop_ge by lia. apply take_nil.
    + intros Hlt Hnil. apply (f_equal length) in Hnil.
      rewrite length_take, length_drop in Hnil.
      change (length (@nil pydict)) with 0%nat in Hnil. lia.
Qed.

End PagesFacts.

(** ** Commands and buttons that end in an exception *)

Section DeadEnds.

Context (net : network) (RAPIDAPI_KEY : string).

(** X4.  [/purchase] with a country code buys nothing: the handler reaches for
    the callback query of a command, raises, and the world is as it was, with
    no request sent and no message. *)
Theorem purchase_command_with_code_does_nothing
    (user : tg_user) (c : string) (rest : list string) (now : string) (w : world) :
  handle net RAPIDAPI_KEY (on_command user (cmd_purchase (c :: rest)) now) w
  = (Raised (RuntimeFault "AttributeError: 'NoneType' object has no attribute 'message'"), w).
Proof. done. Qed.

Lemma my_sms_on_callback (user : tg_user) (w : world) :
  my_sms_command {| effective_user := user; kind := CallbackQuery |} w
  = (Raised (RuntimeFault "AttributeError: 'NoneType' object has no attribute 'reply_text'"),
     w).
Proof.
  unfold my_sms_command, bind, get_world, update_message_reply_text. cbn [kind].
  destruct (owned_numbers w _) as [l|]; [|done].
  destruct (decide (l = [])); [done|]. by destruct (decide (sms_rows w l = [])).
Qed.

(** X5.  The buttons List Countries, Purchase Number, My SMS and Help, which
    call handlers that answer through the message of a command, raise
    without sending anything and leave the world as it was; the Main Menu
    button raises too, after [start] has written the record of the presser
    anew. *)
Theorem menu_buttons_answer_nothing (user : tg_user) (now : string) (w : world) :
  let fault :=
    RuntimeFault "AttributeError: 'NoneType' object has no attribute 'reply_text'" in
  handle net RAPIDAPI_KEY (on_button user list_countries now) w = (Raised fault, w)
  ∧ handle net RAPIDAPI_KEY (on_button user purchase_menu_cb now) w = (Raised fault, w)
  ∧ handle net RAPIDAPI_KEY (on_button user my_sms now) w = (Raised fault, w)
  ∧ handle net RAPIDAPI_KEY (on_button user help now) w = (Raised fault, w)
  ∧ handle net RAPIDAPI_KEY (on_button user main_menu now) w
    = (Raised fault,
       set_user_data_store <[id user := started_record user now]> w).
Proof.
  cbv zeta. repeat split; try done. apply my_sms_on_callback.
Qed.

End DeadEnds.

(** ** Reading SMS *)

Section SmsFacts.

Context (net : network) (RAPIDAPI_KEY : string).

Lemma first_items {A} (l : list A) (n : nat) : py_slice l 0 (Z.of_nat n) = take n l.
Proof.
  change 0 with (Z.of_nat 0). rewrite py_slice_nat by lia.
  cbn [drop]. f_equal. lia.
Qed.




Lemma view_sms_eq (user : tg_user) (number_id : string) (w : world) :
  let request :=
    VirtualNumberAPI.get_sms_request (api_client RAPIDAPI_KEY) (PyStr number_id) in
  let result := result_of_answer (net (http_log w) request) in
  let w1 := set_http_log (fun l => l ++ [request]) w in
  let send (text : string) : outcome unit * world :=
    (Done tt,
     set_outbox
       (fun o => o ++ [edit_text text
                         (Some [ [ {| label := "🔄 Refresh";
                                      callback_data := "view_sms_" +:+ number_id |} ];
                                 [ {| label := "📱 My Numbers"; callback_data := "my_sms" |} ];
                                 [ main_menu_button ] ]) MARKDOWN]) w1) in
  view_sms_messages net RAPIDAPI_KEY {| effective_user := user; kind := CallbackQuery |}
    number_id w =
  if success result then
    if payload_truthy (default (PList []) (data result)) then
      match default (PList []) (data result) with
      | PNull => (Raised (RuntimeFault "TypeError: 'NoneType' object is not subscriptable"), w1)
      | PDict _ => (Raised (RuntimeFault "a dict cannot be sliced"), w1)
      | PList l =>
          send ("📨 *SMS Messages for " +:+ number_id +:+ "*

" +:+ concat_str (sms_entry <$> py_slice l 0 10))
      end
    else send ("📭 No SMS messages found for " +:+ number_id)
  else send ("❌ Error fetching SMS: "
             +:+ py_str (default (PyStr "Unknown error") (error result))).
Proof.
  cbv zeta. unfold view_sms_messages, query_edit_message_text, send_message.
  cbn [kind effective_user]. unfold bind at 1. rewrite get_sms_eq.
  unfold bind, ret, raise, modify.
  destruct (success _); [|done].
  destruct (payload_truthy _); [|done].
  by destruct (default (PList []) _).
Qed.

(** X11.  A press of a view-SMS button sends one request for the SMS of the id
    it names, whoever presses and whether or not the id is registered, and
    changes nothing but the message shown.  The message lists the first ten
    messages of the answer in the order received, says that there is none
    when the answer has none or has [null] for them, or shows the error
    text. *)
Theorem view_sms_shows_first_ten
    (user : tg_user) (number_id : string) (now : string) (w : world) :
  let request :=
    VirtualNumberAPI.get_sms_request (api_client RAPIDAPI_KEY) (PyStr number_id) in
  let result := result_of_answer (net (http_log w) request) in
  let keyboard :=
    [ [ {| label := "🔄 Refresh"; callback_data := "view_sms_" +:+ number_id |} ];
      [ {| label := "📱 My Numbers"; callback_data := "my_sms" |} ];
      [ main_menu_button ] ] in
  let shows (text : string) :=
    handle net RAPIDAPI_KEY (on_button user (view_sms_ number_id) now) w
    = (Done tt,
       set_outbox (fun o => o ++ [edit_text text (Some keyboard) MARKDOWN])
         (set_http_log (fun l => l ++ [request]) w)) in
  if success result then
    match default (PList []) (data result) with
    | PNull | PList [] => shows ("📭 No SMS messages found for " +:+ number_id)
    | PList l =>
        shows ("📨 *SMS Messages for " +:+ number_id +:+ "*

" +:+ concat_str (sms_entry <$> take 10 l))
    | PDict d =>
        if decide (d = ∅) then shows ("📭 No SMS messages found for " +:+ number_id)
        else handle net RAPIDAPI_KEY (on_button user (view_sms_ number_id) now) w
             = (Raised (RuntimeFault "a dict cannot be sliced"),
                set_http_log (fun l => l ++ [request]) w)
    end
  else
    shows ("❌ Error fetching SMS: "
           +:+ py_str (default (PyStr "Unknown error") (error result))).
Proof.
  cbv zeta. cbn [handle button_handler]. rewrite view_sms_eq. cbv zeta.
  destruct (success _); [|done].
  destruct (default (PList []) _) as [|d|l]; cbn [payload_truthy].
  - done.
  - destruct (decide (d = ∅)) as [->|Hd].
    + by rewrite bool_decide_eq_false_2 by (by intros ?).
    + by rewrite bool_decide_eq_true_2.
  - destruct l as [|m l]; [done|].
    rewrite bool_decide_eq_true_2 by done.
    change 10 with (Z.of_nat 10). by rewrite first_items.
Qed.

End SmsFacts.

(** ** Who calls the provider, and when *)

Section RequestFacts.

Context (net : network) (RAPIDAPI_KEY : string).

Lemma quiet_handlers (user : tg_user) (now : string) (k : update_kind) :
  let update := {| effective_user := user; kind := k |} in
  preserves http_log (start update now)
  ∧ preserves http_log (help_command update)
  ∧ preserves http_log (my_sms_command update)
  ∧ preserves http_log (active_numbers_command update)
  ∧ preserves http_log (purchase_number_command net RAPIDAPI_KEY update [] now)
  ∧ preserves http_log (cancel_number_command net RAPIDAPI_KEY update [])
  ∧ ∀ page, preserves http_log (show_countries_page update page).
Proof.
  cbv zeta.
  split; [|split; [|split; [|split; [|split; [|split; [|intros page]]]]]];
    unfold start, help_command, my_sms_command, active_numbers_command,
      purchase_number_command, cancel_number_command, show_countries_page;
    frame.
Qed.

(** X19.  Handling a command or a button press sends the requests of the
    operations listed by [requested], in that order, and no other: at most
    one request per event, namely for [/countries], for a country button,
    for a view-SMS button, and for a [/cancel] whose id is both in the
    caller's list and in the registry.  A [/cancel] that fails either check
    reaches the provider no more than [/start], [/help], [/mysms],
    [/active] or a page button do. *)
Theorem requests_of_an_event (w : world) (e : event) :
  e ≠ on_timer →
  http_log (step net RAPIDAPI_KEY w e)
  = http_log w ++ (request_of (api_client RAPIDAPI_KEY) <$> requested w e)
  ∧ (length (requested w e) ≤ 1)%nat.
Proof.
  intros He. split.
  2:{ destruct e as [user [| | |args| | |[|arg rest]] now
                    |user [| | | | |page|c|number_id|] now|]; cbn; try lia.
      destruct (_ && _); cbn; lia. }
  unfold step. destruct e as [user c now|user data now|]; [| |done]; cbn [handle].
  - destruct (quiet_handlers user now Command) as (Hst & Hh & Hm & Ha & Hp & Hc & Hshow).
    destruct c as [| | |[|c args]| | |[|arg rest]]; cbn [requested fmap list_fmap];
      rewrite ?app_nil_r; try done.
    + rewrite list_countries_eq. cbv zeta.
      destruct (success _); [|by cbn].
      destruct (payload_truthy _); [|by cbn].
      by rewrite Hshow.
    + rewrite cancel_eq. cbn [snd].
      destruct (bool_decide (PyStr arg ∈ _)); cbn [negb andb];
        [|by rewrite app_nil_r].
      destruct (bool_decide (is_Some _)); cbn [negb];
        [|by rewrite app_nil_r].
      by destruct (success _).
  - destruct (quiet_handlers user now CallbackQuery)
      as (Hst & Hh & Hm & Ha & Hp & Hc & Hshow).
    destruct data as [| | | | |page|c|number_id|];
      cbn [button_handler requested fmap list_fmap]; rewrite ?app_nil_r; try done.
    + unfold bind, modify. by rewrite Hshow.
    + rewrite purchase_eq. cbv zeta.
      destruct (success _); [|by cbn].
      by destruct (default (PDict ∅) _).
    + rewrite view_sms_eq. cbv zeta.
      destruct (success _); [|by cbn].
      destruct (payload_truthy _); [|by cbn].
      by destruct (default (PList []) _).
Qed.

End RequestFacts.

(** ** Buying, cancelling, starting over *)

Section CompositionFacts.

Context (net : network) (RAPIDAPI_KEY : string).

(** X20.  A number just bought under a string id can be cancelled by its buyer:
    the cancel command passes both checks and reaches the provider with
    that id, and the provider's answer decides.  If it accepts, the record
    stays as the purchase made it but for the status, now cancelled, and
    the reply confirms; if not, the record is unchanged and the reply shows
    the error. *)
Theorem bought_number_can_be_cancelled
    (user : tg_user) (c now later : string) (w : world)
    (s : string) (phone : pyval) (rest : list string) :
  purchased (purchase_answer net RAPIDAPI_KEY w c) = Some (PyStr s, phone) →
  let w1 := step net RAPIDAPI_KEY w (on_button user (select_country_ c) now) in
  let w2 := step net RAPIDAPI_KEY w1 (on_command user (cmd_cancel (s :: rest)) later) in
  let answer := cancel_answer net RAPIDAPI_KEY w1 (PyStr s) in
  http_log w2
  = http_log w1
    ++ [VirtualNumberAPI.cancel_number_request (api_client RAPIDAPI_KEY) (PyStr s)]
  ∧ purchased_numbers w2 !! PyStr s
    = Some {| user_id := id user; country_code := c; phone_number := phone;
              purchase_date := now;
              status := if success answer then cancelled else active |}
  ∧ last (outbox w2)
    = Some (if success answer then cancel_ok_message s
            else reply_text
                   ("❌ Cancellation failed: "
                    +:+ py_str (default (PyStr "Cancellation failed") (error answer)))
                   None PlainText).
Proof.
  intros Hp. cbv zeta.
  set (w1 := step net RAPIDAPI_KEY w (on_button user (select_country_ c) now)).
  assert (Hreg : purchased_numbers w1 !! PyStr s
                 = Some {| user_id := id user; country_code := c; phone_number := phone;
                           purchase_date := now; status := active |}).
  { unfold w1, step. cbn [handle button_handler]. rewrite purchase_registry, Hp.
    cbn [kind effective_user]. by rewrite lookup_insert_eq. }
  assert (Hown : PyStr s ∈ default [] (owned_numbers w1 (id user))).
  { unfold w1, step, owned_numbers. cbn [handle button_handler].
    rewrite purchase_users, Hp. cbn [kind effective_user].
    rewrite owned_after_purchase, decide_True by done. cbn.
    apply elem_of_app. right. by apply list_elem_of_singleton. }
  unfold step. cbn [handle]. rewrite cancel_eq. cbn [snd].
  rewrite (bool_decide_eq_true_2 _ Hown). cbn [negb].
  rewrite bool_decide_eq_true_2 by (rewrite Hreg; eauto). cbn [negb].
  destruct (success _).
  - cbn. rewrite lookup_alter_eq, Hreg, last_snoc. done.
  - cbn. rewrite Hreg, last_snoc. done.
Qed.

Lemma start_on_command (user : tg_user) (now : string) (w : world) :
  ∃ message,
    step net RAPIDAPI_KEY w (on_command user cmd_start now)
    = set_outbox (fun o => o ++ [message])
        (set_user_data_store <[id user := started_record user now]> w).
Proof. by eexists. Qed.

(** X21.  After [/start] the numbers of the user are out of reach: the owned
    list is gone while the registry is as before, so every [/cancel] of the
    user is refused with the combined error without reaching the provider,
    and [/mysms] and [/active] answer that the user has no numbers. *)
Theorem after_start_numbers_are_out_of_reach (user : tg_user) (now : string) (w : world) :
  let w1 := step net RAPIDAPI_KEY w (on_command user cmd_start now) in
  purchased_numbers w1 = purchased_numbers w
  ∧ owned_numbers w1 (id user) = None
  ∧ (∀ arg rest later,
       step net RAPIDAPI_KEY w1 (on_command user (cmd_cancel (arg :: rest)) later)
       = set_outbox (fun o => o ++ [not_found_or_not_yours]) w1)
  ∧ (∀ later,
       step net RAPIDAPI_KEY w1 (on_command user cmd_mysms later)
       = set_outbox
           (fun o => o ++ [reply_text "📭 You don't have any active numbers." None PlainText])
           w1)
  ∧ (∀ later,
       step net RAPIDAPI_KEY w1 (on_command user cmd_active later)
       = set_outbox
           (fun o => o ++ [reply_text "📱 You don't have any active numbers." None PlainText])
           w1).
Proof.
  cbv zeta. destruct (start_on_command user now w) as [message ->].
  set (w1 := set_outbox _ _).
  assert (Hown : owned_numbers w1 (id user) = None).
  { unfold owned_numbers, w1. cbn. by rewrite lookup_insert_eq. }
  split; [done|]. split; [done|]. split; [|split].
  - intros arg rest later. unfold step. cbn [handle]. rewrite cancel_eq. cbn [snd].
    rewrite Hown. cbn [default].
    by rewrite bool_decide_eq_false_2 by apply not_elem_of_nil.
  - intros later. unfold step. cbn [handle].
    unfold my_sms_command, bind, get_world. cbn [effective_user id]. by rewrite Hown.
  - intros later. unfold step. cbn [handle].
    unfold active_numbers_command, bind, get_world. cbn [effective_user id].
    by rewrite Hown.
Qed.

(** X22.  From the empty world, after any events among which there is no
    [start] and no purchase answered with an id already registered, every
    registered number is in the owned list of its recorded owner and of no
    other user, and every id in an owned list is registered. *)
Theorem ownership_from_the_empty_world (es : list event) :
  disciplined net RAPIDAPI_KEY empty_world es = true →
  exactly_one_owner (run net RAPIDAPI_KEY es empty_world)
  ∧ listed_are_registered (run net RAPIDAPI_KEY es empty_world).
Proof.
  intros Hd. destruct empty_world_ownership as [Hone Hreg].
  by apply ownership_kept_without_restart.
Qed.

End CompositionFacts.

(** ** Asking twice *)

Section RepeatFacts.

Context (net : network) (RAPIDAPI_KEY : string).

Lemma quiet_step (u : Z) (w : world) (e : event) :
  quiet_for u e = true →
  purchased_numbers (step net RAPIDAPI_KEY w e) = purchased_numbers w
  ∧ owned_numbers (step net RAPIDAPI_KEY w e) u = owned_numbers w u.
Proof.
  intros Hq. pose proof (step_stores_by_event net RAPIDAPI_KEY w e) as Hs.
  cbv zeta in Hs. unfold owned_numbers.
  destruct e as [user c now|user data now|].
  - destruct c as [| | |args| | |args]; try discriminate Hq;
      destruct Hs as [-> ->]; try done.
    cbn in Hq. apply bool_decide_eq_true in Hq. by rewrite lookup_insert_ne.
  - destruct data as [| | | | |page|c|number_id|]; try discriminate Hq;
      destruct Hs as [-> ->]; try done.
    cbn in Hq. apply bool_decide_eq_true in Hq. by rewrite lookup_insert_ne.
  - by destruct Hs as [-> ->].
Qed.

Lemma quiet_run (u : Z) (es : list event) (w : world) :
  forallb (quiet_for u) es = true →
  purchased_numbers (run net RAPIDAPI_KEY es w) = purchased_numbers w
  ∧ owned_numbers (run net RAPIDAPI_KEY es w) u = owned_numbers w u.
Proof.
  revert w. induction es as [|e es IH]; intros w Hq; [done|].
  cbn in Hq. apply andb_true_iff in Hq as [He Hes].
  destruct (quiet_step u w e He) as [Hp Ho].
  destruct (IH (step net RAPIDAPI_KEY w e) Hes) as [Hp' Ho'].
  cbn [run foldl]. fold (run net RAPIDAPI_KEY es (step net RAPIDAPI_KEY w e)).
  by rewrite Hp', Ho', Hp, Ho.
Qed.

Lemma outbox_append_nil (w : world) : set_outbox (fun o => o ++ []) w = w.
Proof. destruct w. unfold set_outbox. cbn. by rewrite app_nil_r. Qed.

(** The answer of [/active] and of [/mysms] is read off the registry and
    the caller's owned list, and nothing else. *)
Lemma read_only_answer (user : tg_user) (c : command) (now now' : string) (w w' : world) :
  c = cmd_active ∨ c = cmd_mysms →
  purchased_numbers w = purchased_numbers w' →
  owned_numbers w (id user) = owned_numbers w' (id user) →
  ∃ r sent,
    handle net RAPIDAPI_KEY (on_command user c now) w
    = (r, set_outbox (fun o => o ++ sent) w)
    ∧ handle net RAPIDAPI_KEY (on_command user c now') w'
      = (r, set_outbox (fun o => o ++ sent) w').
Proof.
  intros [-> | ->] Hp Ho; cbn [handle];
    unfold active_numbers_command, my_sms_command, bind, get_world,
      active_numbers_of, sms_rows, update_message_reply_text, send_message, modify;
    cbn [effective_user id kind]; rewrite <- Ho, <- Hp;
    repeat case_match;
    first [ by eexists _, _
          | eexists _, []; unfold raise; by rewrite !outbox_append_nil ].
Qed.

(** X25.  The answers of [/active] and of [/mysms] repeat: when a user asks,
    then events follow among which there is no purchase, no cancel and no
    [start] of that user, and the user asks again, both invocations end
    the same way and send the same messages, and the registry and the
    user's owned list are still as before the first. *)
Theorem answers_repeat_without_purchase_cancel_start
    (user : tg_user) (c : command) (now now' : string) (es : list event) (w : world) :
  c = cmd_active ∨ c = cmd_mysms →
  forallb (quiet_for (id user)) es = true →
  let w1 := step net RAPIDAPI_KEY w (on_command user c now) in
  let w2 := run net RAPIDAPI_KEY es w1 in
  let w3 := step net RAPIDAPI_KEY w2 (on_command user c now') in
  (handle net RAPIDAPI_KEY (on_command user c now) w).1
  = (handle net RAPIDAPI_KEY (on_command user c now') w2).1
  ∧ (∃ sent, outbox w1 = outbox w ++ sent ∧ outbox w3 = outbox w2 ++ sent)
  ∧ purchased_numbers w3 = purchased_numbers w
  ∧ owned_numbers w3 (id user) = owned_numbers w (id user).
Proof.
  intros Hc Hq. cbv zeta.
  destruct (read_only_answer user c now now w w Hc eq_refl eq_refl) as (r0 & sent0 & H0 & _).
  assert (H1 : purchased_numbers (step net RAPIDAPI_KEY w (on_command user c now))
               = purchased_numbers w
               ∧ owned_numbers (step net RAPIDAPI_KEY w (on_command user c now)) (id user)
                 = owned_numbers w (id user)).
  { unfold step. by rewrite H0. }
  destruct H1 as [Hp1 Ho1].
  set (w1 := step net RAPIDAPI_KEY w (on_command user c now)) in *.
  destruct (quiet_run (id user) es w1 Hq) as [Hp2 Ho2].
  rewrite Hp1 in Hp2. rewrite Ho1 in Ho2.
  set (w2 := run net RAPIDAPI_KEY es w1) in *.
  destruct (read_only_answer user c now now' w w2 Hc (eq_sym Hp2) (eq_sym Ho2))
    as (r & sent & Hw & Hw2).
  assert (Hw1 : w1 = set_outbox (fun o => o ++ sent) w).
  { subst w1. unfold step. by rewrite Hw. }
  unfold step. rewrite Hw, Hw2, Hw1. cbn [fst snd].
  split; [done|]. split; [by exists sent|]. done.
Qed.

End RepeatFacts.

(** ** The further properties, on the scenario *)

Section FurtherScenario.

Import Scenario.

(** The cancelled number 123 through another cancel, a purchase by Bob,
    a poll and a [/start]. *)
Lemma cancelled_is_final_witness :
  let es := [ on_command alice (cmd_cancel ["123"]) t2; buy bob "GB" t2; on_timer;
              on_command alice cmd_start t2 ] in
  purchased_numbers w_cancelled !! PyStr "123" = Some (Edge.record_123 cancelled)
  ∧ recreated provider key (PyStr "123") w_cancelled es = false
  ∧ purchased_numbers (run provider key es w_cancelled) !! PyStr "123"
    = Some (Edge.record_123 cancelled).
Proof.
  cbv zeta.
  assert (Hl : purchased_numbers w_cancelled !! PyStr "123" = Some (Edge.record_123 cancelled))
    by (vm_compute; reflexivity).
  split; [exact Hl|]. split; [vm_compute; reflexivity|].
  apply (cancelled_is_final provider key _ w_cancelled (PyStr "123") (Edge.record_123 cancelled) Hl);
    vm_compute; reflexivity.
Defined.

(** Alice cancels her active number 123. *)
Lemma only_a_listed_cancel_cancels_witness :
  let e := on_command alice (cmd_cancel ["123"]) t1 in
  purchased_numbers w_bought !! PyStr "123" = Some (Edge.record_123 active)
  ∧ (status <$> purchased_numbers (step provider key w_bought e) !! PyStr "123")
    = Some cancelled
  ∧ ∃ user arg rest now,
      e = on_command user (cmd_cancel (arg :: rest)) now
      ∧ PyStr "123" = PyStr arg
      ∧ PyStr "123" ∈ default [] (owned_numbers w_bought (id user))
      ∧ success (cancel_answer provider key w_bought (PyStr "123")) = true.
Proof.
  cbv zeta.
  assert (Hl : purchased_numbers w_bought !! PyStr "123" = Some (Edge.record_123 active))
    by (vm_compute; reflexivity).
  assert (Hc : (status <$> purchased_numbers
                  (step provider key w_bought (on_command alice (cmd_cancel ["123"]) t1))
                  !! PyStr "123") = Some cancelled)
    by (vm_compute; reflexivity).
  split; [exact Hl|]. split; [exact Hc|].
  exact (only_a_listed_cancel_cancels provider key w_bought _ (PyStr "123") (Edge.record_123 active)
           Hl eq_refl Hc).
Defined.

(** Number 77, bought from the provider with integer ids, through a
    [/cancel 77] and a poll. *)
Lemma non_string_id_is_never_cancelled_witness :
  let w := run Edge.numeric key [buy alice "US" t0] empty_world in
  let es := [ on_command alice (cmd_cancel ["77"]) t1; on_timer ] in
  let info := {| user_id := 1; country_code := "US"; phone_number := PyStr "+15550177";
                 purchase_date := t0; status := active |} in
  purchased_numbers w !! PyInt 77 = Some info
  ∧ recreated Edge.numeric key (PyInt 77) w es = false
  ∧ purchased_numbers (run Edge.numeric key es w) !! PyInt 77 = Some info.
Proof.
  cbv zeta.
  split; [vm_compute; reflexivity|]. split; [vm_compute; reflexivity|].
  apply (non_string_id_is_never_cancelled Edge.numeric key);
    [vm_compute; reflexivity|intros s; discriminate|vm_compute; reflexivity].
Defined.

(** Number 123 and the record of Alice through a [/start], a cancel and a
    purchase by Bob. *)
Lemma nothing_is_ever_deleted_witness :
  let es := [ on_command alice cmd_start t1; on_command alice (cmd_cancel ["123"]) t1;
              buy bob "GB" t2 ] in
  is_Some (purchased_numbers w_bought !! PyStr "123")
  ∧ is_Some (user_data_store w_bought !! 1)
  ∧ is_Some (purchased_numbers (run provider key es w_bought) !! PyStr "123")
  ∧ is_Some (user_data_store (run provider key es w_bought) !! 1).
Proof.
  cbv zeta.
  assert (Hn : is_Some (purchased_numbers w_bought !! PyStr "123"))
    by (exists (Edge.record_123 active); vm_compute; reflexivity).
  assert (Hu : is_Some (user_data_store w_bought !! 1))
    by (exists {| user_profile := None; numbers := Some [PyStr "123"] |};
        vm_compute; reflexivity).
  split; [exact Hn|]. split; [exact Hu|].
  exact (nothing_is_ever_deleted provider key _ w_bought (PyStr "123") 1 Hn Hu).
Defined.

(** Bob sends [/start]; Alice's record is as it was. *)
Lemma other_users_are_untouched_witness :
  event_user (on_command bob cmd_start t1) ≠ Some 1
  ∧ owned_numbers (step provider key w_bought (on_command bob cmd_start t1)) 1
    = owned_numbers w_bought 1.
Proof.
  assert (Hv : event_user (on_command bob cmd_start t1) ≠ Some 1) by (cbn; congruence).
  split; [exact Hv|].
  exact (proj1 (proj2 (other_users_are_untouched provider key w_bought _ 1 Hv))).
Defined.

(** Alice's purchase of number 123 in the empty world. *)
Lemma purchase_stores_and_appends_witness :
  purchased (purchase_answer provider key empty_world "US")
  = Some (PyStr "123", PyStr "+15550100")
  ∧ purchased_numbers (step provider key empty_world (buy alice "US" t0)) !! PyStr "123"
    = Some (Edge.record_123 active)
  ∧ owned_numbers (step provider key empty_world (buy alice "US" t0)) (id alice)
    = Some (default [] (owned_numbers empty_world (id alice)) ++ [PyStr "123"]).
Proof.
  assert (Hp : purchased (purchase_answer provider key empty_world "US")
               = Some (PyStr "123", PyStr "+15550100")) by (vm_compute; reflexivity).
  split; [exact Hp|].
  destruct (purchase_stores_and_appends provider key alice "US" t0 empty_world _ _ Hp)
    as (H1 & _ & H3 & _).
  split; [exact H1|exact H3].
Defined.

(** A purchase on the network on which every request times out. *)
Lemma failed_purchase_changes_nothing_witness :
  success (purchase_answer unreachable key w_bought "GB") = false
  ∧ purchased_numbers (step unreachable key w_bought (buy bob "GB" t1))
    = purchased_numbers w_bought
  ∧ user_data_store (step unreachable key w_bought (buy bob "GB" t1))
    = user_data_store w_bought.
Proof.
  assert (Hf : success (purchase_answer unreachable key w_bought "GB") = false)
    by reflexivity.
  split; [exact Hf|].
  destruct (failed_purchase_changes_nothing unreachable key bob "GB" t1 w_bought Hf)
    as (H1 & H2 & _).
  split; [exact H1|exact H2].
Defined.

(** A purchase answered with success and nothing else. *)
Lemma purchase_without_id_is_stored_under_none_witness :
  success (purchase_answer Edge.careless key empty_world "US") = true
  ∧ default (PDict ∅) (data (purchase_answer Edge.careless key empty_world "US")) = PDict ∅
  ∧ (∅ : pydict) !! "number_id" = None
  ∧ purchased_numbers (step Edge.careless key empty_world (buy alice "US" t0)) !! PyNone
    = Some {| user_id := 1; country_code := "US"; phone_number := PyNone;
              purchase_date := t0; status := active |}.
Proof.
  assert (Hs : success (purchase_answer Edge.careless key empty_world "US") = true)
    by reflexivity.
  assert (Hd : default (PDict ∅) (data (purchase_answer Edge.careless key empty_world "US"))
               = PDict ∅) by reflexivity.
  assert (Hn : (∅ : pydict) !! "number_id" = None) by reflexivity.
  split; [exact Hs|]. split; [exact Hd|]. split; [exact Hn|].
  exact (proj1 (purchase_without_id_is_stored_under_none Edge.careless key alice "US" t0
                  empty_world ∅ Hs Hd Hn)).
Defined.

(** Bob's [/cancel 123] of Alice's number sends nothing; hers sends one
    request. *)
Lemma requests_of_an_event_witness :
  on_command bob (cmd_cancel ["123"]) t1 ≠ on_timer
  ∧ http_log (step provider key w_bought (on_command bob (cmd_cancel ["123"]) t1))
    = http_log w_bought
      ++ (request_of (api_client key)
            <$> requested w_bought (on_command bob (cmd_cancel ["123"]) t1))
  ∧ requested w_bought (on_command bob (cmd_cancel ["123"]) t1) = []
  ∧ requested w_bought (on_command alice (cmd_cancel ["123"]) t1)
    = [op_cancel_number (PyStr "123")].
Proof.
  assert (He : on_command bob (cmd_cancel ["123"]) t1 ≠ on_timer) by discriminate.
  split; [exact He|].
  split; [exact (proj1 (requests_of_an_event provider key w_bought _ He))|].
  split; vm_compute; reflexivity.
Defined.

(** Alice buys number 123 and cancels it. *)
Lemma bought_number_can_be_cancelled_witness :
  purchased (purchase_answer provider key empty_world "US")
  = Some (PyStr "123", PyStr "+15550100")
  ∧ purchased_numbers
      (step provider key (step provider key empty_world (buy alice "US" t0))
         (on_command alice (cmd_cancel ["123"]) t1)) !! PyStr "123"
    = Some (Edge.record_123 cancelled).
Proof.
  assert (Hp : purchased (purchase_answer provider key empty_world "US")
               = Some (PyStr "123", PyStr "+15550100")) by (vm_compute; reflexivity).
  split; [exact Hp|].
  destruct (bought_number_can_be_cancelled provider key alice "US" t0 t1 empty_world
              "123" (PyStr "+15550100") [] Hp) as (_ & H2 & _).
  refine (eq_trans H2 _). vm_compute. reflexivity.
Defined.

(** Two purchases, a cancel and a poll. *)
Lemma ownership_from_the_empty_world_witness :
  let es := [ buy alice "US" t0; buy bob "GB" t1;
              on_command alice (cmd_cancel ["123"]) t2; on_timer ] in
  disciplined provider key empty_world es = true
  ∧ exactly_one_owner (run provider key es empty_world).
Proof.
  cbv zeta.
  assert (Hd : disciplined provider key empty_world
                 [ buy alice "US" t0; buy bob "GB" t1;
                   on_command alice (cmd_cancel ["123"]) t2; on_timer ] = true)
    by (vm_compute; reflexivity).
  split; [exact Hd|].
  exact (proj1 (ownership_from_the_empty_world provider key _ Hd)).
Defined.

(** The provider answers Alice's purchase with success and [null] data. *)
Lemma purchase_with_null_data_stores_nothing_witness :
  success (purchase_answer Edge.hollow key empty_world "US") = true
  ∧ data (purchase_answer Edge.hollow key empty_world "US") = Some PNull
  ∧ purchased_numbers (handle Edge.hollow key (buy alice "US" t0) empty_world).2
    = purchased_numbers empty_world
  ∧ user_data_store (handle Edge.hollow key (buy alice "US" t0) empty_world).2
    = user_data_store empty_world.
Proof.
  assert (Hs : success (purchase_answer Edge.hollow key empty_world "US") = true)
    by reflexivity.
  assert (Hd : data (purchase_answer Edge.hollow key empty_world "US") = Some PNull)
    by reflexivity.
  split; [exact Hs|]. split; [exact Hd|].
  destruct (purchase_with_null_data_stores_nothing Edge.hollow key alice "US" t0
              empty_world Hs Hd) as (_ & Hp & Hu & _).
  split; [exact Hp|exact Hu].
Defined.

(** Between Alice's two [/active]: her [/help], Bob's [/start], a firing of
    the scheduler, her [/countries] and a page button. *)
Lemma answers_repeat_without_purchase_cancel_start_witness :
  let es := [ on_command alice cmd_help t1; on_command bob cmd_start t1; on_timer;
              on_command alice cmd_countries t1; on_button alice (country_page_ 1) t2 ] in
  forallb (quiet_for (id alice)) es = true
  ∧ (∃ sent,
       outbox (step provider key w_bought (on_command alice cmd_active t1))
       = outbox w_bought ++ sent
       ∧ outbox (step provider key
                   (run provider key es
                      (step provider key w_bought (on_command alice cmd_active t1)))
                   (on_command alice cmd_active t2))
         = outbox (run provider key es
                     (step provider key w_bought (on_command alice cmd_active t1)))
           ++ sent).
Proof.
  cbv zeta.
  assert (Hq : forallb (quiet_for (id alice))
                 [ on_command alice cmd_help t1; on_command bob cmd_start t1; on_timer;
                   on_command alice cmd_countries t1; on_button alice (country_page_ 1) t2 ]
               = true) by (vm_compute; reflexivity).
  split; [exact Hq|].
  destruct (answers_repeat_without_purchase_cancel_start provider key alice cmd_active
              t1 t2 _ w_bought (or_introl eq_refl) Hq) as (_ & Hsent & _).
  exact Hsent.
Defined.

End FurtherScenario.
